(** * The study-plan scheduling engine of [server/controllers/plannerController.js]

    A shallow embedding of the planning core ([parseTimeString],
    [getDailyWindow], [buildBreaksForDay], [buildStudyWindows],
    [choosePreferredBlockMinutes], [pickBlockLength], [buildStructuredPlan])
    and the properties its design document states about it.

    Conventions of the embedding.
    - A JavaScript [Date] is its time value: an integer number of
      milliseconds.  The calendar methods the engine calls ([setDate],
      [setHours]) work on local wall-clock time; we count milliseconds on the
      local time line and take every calendar day to last 24 hours (a zone
      with a fixed UTC offset).  Comparisons and differences of dates do not
      depend on the offset.
    - [Array.prototype.sort] is stable; it is embedded as a stable
      insertion sort on the key the comparator subtracts.
    - The [while] loop of the packer is embedded with fuel; running out of
      fuel is [None], and the engine is shown never to run out. *)

From Stdlib Require Import ZArith List Bool Lia String Ascii QArith Sorted.
From Stdlib Require Import Qround Qminmax Lqa.
Import ListNotations.
Open Scope Z_scope.

(** ** Dates *)

Definition Instant := Z.

Definition MS_PER_MINUTE : Z := 60000.
Definition MS_PER_HOUR : Z := 3600000.
Definition MS_PER_DAY : Z := 86400000.

Module JSDate.

(** Local midnight of the calendar day an instant falls on. *)
Definition startOfDay (d : Instant) : Instant := d / MS_PER_DAY * MS_PER_DAY.

(** [d.setDate(d.getDate() + n)] *)
Definition addDays (d : Instant) (n : Z) : Instant := d + n * MS_PER_DAY.

(** [d.setHours(h, m, 0, 0)] *)
Definition setHours (d : Instant) (h m : Z) : Instant :=
  startOfDay d + h * MS_PER_HOUR + m * MS_PER_MINUTE.

(** [Math.round(x / d)] for integers [x] and [d > 0]: the nearest integer,
    halves going up. *)
Definition roundDiv (x d : Z) : Z := (2 * x + d) / (2 * d).

End JSDate.
Import JSDate.

(** ** Data model *)

Record TimeOfDay := mkTime { hours : Z; minutes : Z }.

Record FixedBreak := mkFixedBreak {
  fb_title : string; startHour : Z; endHour : Z }.

Record Break := mkBreak {
  brk_title : string; brk_start : Instant; brk_end : Instant }.

Record Slot := mkSlot { slot_start : Instant; slot_end : Instant }.

(** Subject references are database identifiers; the engine never builds
    one. *)
Definition ObjectId := string.

Record PlanItem := mkItem {
  subjectId : option ObjectId;
  title : string;
  start : Instant;
  end_ : Instant;
  completed : bool }.

Definition FIXED_BREAKS : list FixedBreak :=
  [ mkFixedBreak "Lunch Break" 13 14;
    mkFixedBreak "Snack Break" 17 18;
    mkFixedBreak "Dinner Break" 20 21 ].

Definition MIN_BLOCK_MINUTES : Z := 60.
Definition MAX_BLOCK_MINUTES : Z := 120.
Definition MAX_STUDY_HOURS_PER_DAY : Z := 8.
Definition MAX_PLANNED_DAYS : Z := 60.

(** ** Stable sort by a key: [xs.sort((a, b) => key(a) - key(b))] *)

Section SortBy.
Context {A : Type} (key : A -> Z).

Fixpoint insertBy (x : A) (l : list A) : list A :=
  match l with
  | [] => [x]
  | y :: ys => if key x <=? key y then x :: l else y :: insertBy x ys
  end.

Definition sortBy (l : list A) : list A := fold_right insertBy [] l.

(** The order the sort establishes. *)
Definition keyLe (a b : A) : Prop := key a <= key b.
End SortBy.

(** ** The engine *)

Definition minutesBetweenDates (start_ end' : Instant) : Z :=
  Z.max 0 (roundDiv (end' - start_) MS_PER_MINUTE).

Definition addMinutes (date : Instant) (mins : Z) : Instant :=
  date + mins * MS_PER_MINUTE.

Definition getDailyWindow (anchorDate : Instant) (dayIndex : Z)
    (startTime endTime : TimeOfDay) : Instant * Instant :=
  let dayStart :=
    setHours (addDays anchorDate dayIndex) (hours startTime) (minutes startTime) in
  let dayEnd :=
    setHours (addDays anchorDate dayIndex) (hours endTime) (minutes endTime) in
  let dayEnd := if dayEnd <=? dayStart then addDays dayEnd 1 else dayEnd in
  (dayStart, dayEnd).

(** One turn of the loop over [FIXED_BREAKS]: the break pushed for [brk], if
    any. *)
Definition placeBreak (baseDay windowStart windowEnd : Instant)
    (brk : FixedBreak) : list Break :=
  let start_ := setHours baseDay (startHour brk) 0 in
  let end' := setHours baseDay (endHour brk) 0 in
  let end' := if end' <=? start_ then addDays end' 1 else end' in
  let shifted := start_ <? windowStart in
  let start_ := if shifted then addDays start_ 1 else start_ in
  let end' := if shifted then addDays end' 1 else end' in
  if (windowStart <=? start_) && (end' <=? windowEnd)
  then [mkBreak (fb_title brk) start_ end']
  else [].

Definition buildBreaksForDay (anchorDate : Instant) (dayIndex : Z)
    (windowStart windowEnd : Instant) : list Break :=
  let baseDay := setHours (addDays anchorDate dayIndex) 0 0 in
  sortBy brk_start (flat_map (placeBreak baseDay windowStart windowEnd) FIXED_BREAKS).

(** The walk of [buildStudyWindows] over the sorted breaks: the slots pushed
    from [cursor] on, before the final filter. *)
Fixpoint carveWindows (dayEnd cursor : Instant) (sortedBreaks : list Break)
    : list Slot :=
  match sortedBreaks with
  | [] => if cursor <? dayEnd then [mkSlot cursor dayEnd] else []
  | brk :: rest =>
      (if cursor <? brk_start brk then [mkSlot cursor (brk_start brk)] else [])
      ++ carveWindows dayEnd (if cursor <? brk_end brk then brk_end brk else cursor) rest
  end.

Definition slotFits (slot : Slot) : bool :=
  MIN_BLOCK_MINUTES <=? minutesBetweenDates (slot_start slot) (slot_end slot).

Definition buildStudyWindows (dayStart dayEnd : Instant) (breaks : list Break)
    : list Slot :=
  let sortedBreaks := sortBy brk_start breaks in
  filter slotFits (carveWindows dayEnd dayStart sortedBreaks).

(** [availableMinutes / subjectCount >= 90] is a comparison of the exact
    quotient: both operands are integers. *)
Definition choosePreferredBlockMinutes (availableMinutes subjectCount : Z) : Z :=
  if (availableMinutes <? MIN_BLOCK_MINUTES) || (subjectCount <=? 0) then 0
  else
    let perSubject : Q := (inject_Z availableMinutes / inject_Z subjectCount)%Q in
    if Qle_bool 90%Q perSubject && (MAX_BLOCK_MINUTES <=? availableMinutes)
    then MAX_BLOCK_MINUTES
    else MIN_BLOCK_MINUTES.

Definition pickBlockLength (preferred slotRemaining capRemaining : Z) : Z :=
  if negb (preferred =? 0) && (preferred <=? slotRemaining)
     && (preferred <=? capRemaining)
  then preferred
  else if (MIN_BLOCK_MINUTES <=? slotRemaining)
          && (MIN_BLOCK_MINUTES <=? capRemaining)
  then MIN_BLOCK_MINUTES
  else 0.

(** *** The packer *)

(** The mutable locals of one day of [buildStructuredPlan];
    [subjectCursor] outlives the day. *)
Record PackState := mkPack {
  minutesScheduled : Z;
  sessions : list PlanItem;
  subjectCursor : Z }.

(** [subjectNames[subjectCursor % subjectNames.length]], as it is
    interpolated into the title: an index outside the array reads
    [undefined]. *)
Definition subjectAt (subjectNames : list string) (cursor : Z) : string :=
  nth (Z.to_nat (Z.rem cursor (Z.of_nat (List.length subjectNames))))
      subjectNames "undefined"%string.

Definition studySession (subjectName : string) (start_ end' : Instant) : PlanItem :=
  mkItem None ("Study " ++ subjectName)%string start_ end' false.

(** The [while (minutesScheduled < dayCap)] loop over one window. *)
Fixpoint packSlot (fuel : nat) (subjectNames : list string)
    (preferredBlock dayCap : Z) (windowEnd cursor : Instant) (st : PackState)
    : option PackState :=
  match fuel with
  | O => None
  | S fuel' =>
      if minutesScheduled st <? dayCap then
        let slotRemaining := minutesBetweenDates cursor windowEnd in
        let capRemaining := dayCap - minutesScheduled st in
        let blockLength := pickBlockLength preferredBlock slotRemaining capRemaining in
        if blockLength =? 0 then Some st
        else
          let subjectName := subjectAt subjectNames (subjectCursor st) in
          let start_ := cursor in
          let end' := addMinutes start_ blockLength in
          packSlot fuel' subjectNames preferredBlock dayCap windowEnd end'
            (mkPack (minutesScheduled st + blockLength)
                    (sessions st ++ [studySession subjectName start_ end'])
                    (subjectCursor st + 1))
      else Some st
  end.

(** The [for (const window of windows)] loop, with its [break]. *)
Fixpoint packWindows (fuel : nat) (subjectNames : list string)
    (preferredBlock dayCap : Z) (windows : list Slot) (st : PackState)
    : option PackState :=
  match windows with
  | [] => Some st
  | window :: rest =>
      match packSlot fuel subjectNames preferredBlock dayCap
                     (slot_end window) (slot_start window) st with
      | None => None
      | Some st' =>
          if dayCap <=? minutesScheduled st' then Some st'
          else packWindows fuel subjectNames preferredBlock dayCap rest st'
      end
  end.

(** Turns of the [while] loop granted per window: a turn that does not
    leave the loop schedules at least one minute of the day's cap. *)
Definition packFuel (dayCap : Z) : nat := S (Z.to_nat dayCap).

Definition breakItem (brk : Break) : PlanItem :=
  mkItem None (brk_title brk) (brk_start brk) (brk_end brk) false.

Definition availableMinutesOf (windows : list Slot) : Z :=
  fold_left
    (fun sum slot => sum + minutesBetweenDates (slot_start slot) (slot_end slot))
    windows 0.

Record PlanRequest := mkRequest {
  anchorDate : Instant;
  subjectNames : list string;
  totalDays : Z;
  startTime : TimeOfDay;
  endTime : TimeOfDay;
  maxStudyMinutesPerDay : Z }.

(** One turn of the loop over the days: the items pushed for day [dayIndex]
    and the subject cursor afterwards. *)
Definition planDay (baseDate : Instant) (req : PlanRequest) (cursor : Z)
    (dayIndex : Z) : option (list PlanItem * Z) :=
  let '(dayStart, dayEnd) :=
    getDailyWindow baseDate dayIndex (startTime req) (endTime req) in
  let breaks := buildBreaksForDay baseDate dayIndex dayStart dayEnd in
  let windows := buildStudyWindows dayStart dayEnd breaks in
  let availableMinutes := availableMinutesOf windows in
  if availableMinutes =? 0 then Some (map breakItem breaks, cursor)
  else
    let preferredBlock :=
      choosePreferredBlockMinutes availableMinutes
        (Z.of_nat (List.length (subjectNames req))) in
    if preferredBlock =? 0 then Some (map breakItem breaks, cursor)
    else
      let dayCap := Z.min (maxStudyMinutesPerDay req) availableMinutes in
      match packWindows (packFuel dayCap) (subjectNames req) preferredBlock dayCap
                        windows (mkPack 0 [] cursor) with
      | None => None
      | Some st =>
          Some (sortBy start (sessions st ++ map breakItem breaks), subjectCursor st)
      end.

(** [for (let dayIndex = 0; dayIndex < totalDays; dayIndex++)], with
    [remaining] turns to go. *)
Fixpoint planDays (baseDate : Instant) (req : PlanRequest) (remaining : nat)
    (dayIndex : Z) (items : list PlanItem) (cursor : Z)
    : option (list PlanItem) :=
  match remaining with
  | O => Some items
  | S remaining' =>
      match planDay baseDate req cursor dayIndex with
      | None => None
      | Some (combined, cursor') =>
          planDays baseDate req remaining' (dayIndex + 1) (items ++ combined) cursor'
      end
  end.

Definition buildStructuredPlan (req : PlanRequest) : option (list PlanItem) :=
  let baseDate := setHours (anchorDate req) 0 0 in
  planDays baseDate req (Z.to_nat (totalDays req)) 0 [] 0.

(** [item.title.toLowerCase().startsWith('study')], the test [createPlan]
    counts study items with. *)
Definition toLowerAscii (c : ascii) : ascii :=
  let n := nat_of_ascii c in
  if (65 <=? n)%nat && (n <=? 90)%nat then ascii_of_nat (n + 32) else c.

Fixpoint toLowerCase (s : string) : string :=
  match s with
  | EmptyString => EmptyString
  | String c r => String (toLowerAscii c) (toLowerCase r)
  end.

Definition isStudyItem (item : PlanItem) : bool :=
  String.prefix "study" (toLowerCase (title item)).

(** ** The time parser

    [parseTimeString] rests on three built-ins: [typeof], [String.split]
    and the [Number] conversion of a string (ECMAScript's StringToNumber).
    The conversion is embedded on byte strings with exact rational values:
    the rounding of a literal to the nearest double is left out, and of the
    white space characters only those of ASCII are known. *)

Module JS.

Inductive Num := NaN | Infinity (negative : bool) | Finite (q : Q).

Inductive Value :=
| VUndefined
| VNull
| VBoolean (b : bool)
| VNumber (n : Num)
| VString (s : string)
| VObject.

Definition isNaN (n : Num) : bool :=
  match n with NaN => true | _ => false end.

(** [a < b] on numbers; a comparison with [NaN] is false. *)
Definition ltb (a b : Num) : bool :=
  match a, b with
  | NaN, _ => false
  | _, NaN => false
  | Infinity true, Infinity true => false
  | Infinity true, _ => true
  | Infinity false, _ => false
  | Finite _, Infinity negative => negb negative
  | Finite x, Finite y => negb (Qle_bool y x)
  end.

Definition ofZ (z : Z) : Num := Finite (inject_Z z).

Definition negate (n : Num) : Num :=
  match n with
  | NaN => NaN
  | Infinity negative => Infinity (negb negative)
  | Finite q => Finite (- q)%Q
  end.

Definition isStrWhiteSpace (c : ascii) : bool :=
  let n := nat_of_ascii c in
  ((9 <=? n)%nat && (n <=? 13)%nat) || (n =? 32)%nat.

Fixpoint dropWhile {A} (p : A -> bool) (l : list A) : list A :=
  match l with
  | [] => []
  | x :: r => if p x then dropWhile p r else l
  end.

Definition trim (l : list ascii) : list ascii :=
  rev (dropWhile isStrWhiteSpace (rev (dropWhile isStrWhiteSpace l))).

(** The value of a digit in the given base, letters counting from ten. *)
Definition digitOf (base : Z) (c : ascii) : option Z :=
  let n := Z.of_nat (nat_of_ascii c) in
  let v :=
    if (48 <=? n) && (n <=? 57) then n - 48
    else if (97 <=? n) && (n <=? 122) then n - 87
    else if (65 <=? n) && (n <=? 90) then n - 55
    else base in
  if v <? base then Some v else None.

(** The longest run of digits at the head of [l]: its value, its length
    and what follows it. *)
Fixpoint readDigits (base acc : Z) (count : nat) (l : list ascii)
    : Z * nat * list ascii :=
  match l with
  | [] => (acc, count, [])
  | c :: r =>
      match digitOf base c with
      | Some d => readDigits base (acc * base + d) (S count) r
      | None => (acc, count, l)
      end
  end.

(** [mantissa * 10 ^ exponent] *)
Definition scale10 (mantissa exponent : Z) : Q :=
  if 0 <=? exponent then inject_Z (mantissa * 10 ^ exponent)
  else Qmake mantissa (Z.to_pos (10 ^ (- exponent))).

Definition isExponentIndicator (c : ascii) : bool :=
  Ascii.eqb c "e" || Ascii.eqb c "E".

(** ExponentPart, which must end the literal. *)
Definition readExponent (l : list ascii) : option Z :=
  match l with
  | [] => Some 0
  | c :: r =>
      if isExponentIndicator c then
        let '(negative, r) :=
          match r with
          | s :: r' =>
              if Ascii.eqb s "-" then (true, r')
              else if Ascii.eqb s "+" then (false, r')
              else (false, r)
          | [] => (false, r)
          end in
        match readDigits 10 0 0 r with
        | (_, O, _) => None
        | (e, S _, []) => Some (if negative then - e else e)
        | (_, S _, _ :: _) => None
        end
      else None
  end.

(** StrUnsignedDecimalLiteral *)
Definition readUnsignedDecimal (l : list ascii) : Num :=
  if list_eq_dec ascii_dec l (list_ascii_of_string "Infinity")
  then Infinity false
  else
    let '(ip, ni, r1) := readDigits 10 0 0 l in
    let '(hasDot, fp, nf, r2) :=
      match r1 with
      | c :: r =>
          if Ascii.eqb c "." then
            let '(fp, nf, r2) := readDigits 10 0 0 r in (true, fp, nf, r2)
          else (false, 0, O, r1)
      | [] => (false, 0, O, r1)
      end in
    if (ni =? 0)%nat && negb (hasDot && negb (nf =? 0)%nat) then NaN
    else
      match readExponent r2 with
      | None => NaN
      | Some e =>
          Finite (scale10 (ip * 10 ^ Z.of_nat nf + fp) (e - Z.of_nat nf))
      end.

(** NonDecimalIntegerLiteral: [0b], [0o] and [0x] prefixes. *)
Definition readNonDecimal (l : list ascii) : option Num :=
  match l with
  | z :: p :: r =>
      let base :=
        if Ascii.eqb p "x" || Ascii.eqb p "X" then Some 16
        else if Ascii.eqb p "o" || Ascii.eqb p "O" then Some 8
        else if Ascii.eqb p "b" || Ascii.eqb p "B" then Some 2
        else None in
      match base with
      | Some b =>
          if Ascii.eqb z "0" then
            match readDigits b 0 0 r with
            | (v, S _, []) => Some (ofZ v)
            | _ => Some NaN
            end
          else None
      | None => None
      end
  | _ => None
  end.

Definition StringToNumber (s : string) : Num :=
  match trim (list_ascii_of_string s) with
  | [] => ofZ 0
  | c :: r =>
      match readNonDecimal (c :: r) with
      | Some n => n
      | None =>
          if Ascii.eqb c "-" then negate (readUnsignedDecimal r)
          else if Ascii.eqb c "+" then readUnsignedDecimal r
          else readUnsignedDecimal (c :: r)
      end
  end.

(** [Number(x)] where [x] is a string or [undefined]. *)
Definition Number (x : option string) : Num :=
  match x with
  | None => NaN
  | Some s => StringToNumber s
  end.

(** [s.split(sep)] for a one-character separator. *)
Fixpoint split (sep : ascii) (s : string) : list string :=
  match s with
  | EmptyString => [EmptyString]
  | String c r =>
      if Ascii.eqb c sep then EmptyString :: split sep r
      else
        match split sep r with
        | h :: t => String c h :: t
        | [] => [String c EmptyString]
        end
  end.

(** The outcome of a call: a returned value or a thrown [Error] with its
    message. *)
Inductive Completion (A : Type) :=
| Return (v : A)
| Throw (message : string).
Arguments Return {A} v.
Arguments Throw {A} message.

End JS.

Record ParsedTime := mkParsed { pt_hours : JS.Num; pt_minutes : JS.Num }.

Definition parseTimeString (value : JS.Value) : JS.Completion ParsedTime :=
  match value with
  | JS.VString s =>
      let parts := JS.split ":" s in
      let hoursStr := nth_error parts 0 in
      let minutesStr := nth_error parts 1 in
      let hours := JS.Number hoursStr in
      let minutes := JS.Number minutesStr in
      if JS.isNaN hours
         || JS.isNaN minutes
         || JS.ltb hours (JS.ofZ 0)
         || JS.ltb (JS.ofZ 23) hours
         || JS.ltb minutes (JS.ofZ 0)
         || JS.ltb (JS.ofZ 59) minutes
      then JS.Throw ("Invalid time format: " ++ s)
      else JS.Return (mkParsed hours minutes)
  | _ => JS.Throw "Time must be in HH:MM format"
  end.


(** ** Predicates the statements use *)

Definition validTime (t : TimeOfDay) : Prop :=
  0 <= hours t <= 23 /\ 0 <= minutes t <= 59.

(** An instant on a minute boundary: seconds and milliseconds are zero. *)
Definition wholeMinute (t : Instant) : Prop := (MS_PER_MINUTE | t).

(** The half-open interval [[lo, hi)] holds the instant [t]. *)
Definition within (lo hi t : Instant) : Prop := lo <= t < hi.

Definition inBreak (t : Instant) (b : Break) : Prop :=
  within (brk_start b) (brk_end b) t.

Definition inSlot (t : Instant) (s : Slot) : Prop :=
  within (slot_start s) (slot_end s) t.

(** Intervals with their two ends: [precedes a b] when [a] is over by the
    time [b] begins, [apart a b] when the two do not overlap. *)
Section Intervals.
Context {A : Type} (lo hi : A -> Instant).

Definition proper (a : A) : Prop := lo a < hi a.
Definition precedes (a b : A) : Prop := hi a <= lo b.
Definition apart (a b : A) : Prop := precedes a b \/ precedes b a.
End Intervals.

Definition itemBefore : PlanItem -> PlanItem -> Prop := precedes start end_.
Definition breakBefore : Break -> Break -> Prop := precedes brk_start brk_end.
Definition slotBefore : Slot -> Slot -> Prop := precedes slot_start slot_end.

(** The minutes a plan item lasts. *)
Definition itemMinutes (item : PlanItem) : Z :=
  minutesBetweenDates (start item) (end_ item).

Definition sumMinutes (items : list PlanItem) : Z :=
  fold_right (fun item acc => itemMinutes item + acc) 0 items.

(** The time of day [h:m] of the calendar day [dayIndex] days after
    [anchor]. *)
Definition clock (anchor : Instant) (dayIndex h m : Z) : Instant :=
  setHours (addDays anchor dayIndex) h m.

(** The interval [buildBreaksForDay] tests against the window for a fixed
    break: the break's hours on the day's calendar date, one day later when
    its start comes before the window's. *)
Definition shiftedCandidate (anchor : Instant) (dayIndex : Z)
    (windowStart : Instant) (spec : FixedBreak) : Break :=
  let k := if clock anchor dayIndex (startHour spec) 0 <? windowStart then 1 else 0 in
  mkBreak (fb_title spec)
          (addDays (clock anchor dayIndex (startHour spec) 0) k)
          (addDays (clock anchor dayIndex (endHour spec) 0) k).

(** *** What the packer leaves behind

    [blocks] lists the sessions cut from one window for a given sequence of
    block lengths, [fits] says that each length was within the room left in
    the window and in the day's cap when it was picked, and [packed] extends
    the two over the windows of a day. *)

Fixpoint blocks (names : list string) (cursor : Z) (from : Instant)
    (lens : list Z) : list PlanItem :=
  match lens with
  | [] => []
  | n :: rest =>
      studySession (subjectAt names cursor) from (addMinutes from n)
      :: blocks names (cursor + 1) (addMinutes from n) rest
  end.

Fixpoint fits (windowEnd : Instant) (dayCap : Z) (from : Instant)
    (scheduled : Z) (lens : list Z) : Prop :=
  match lens with
  | [] => True
  | n :: rest =>
      0 < n /\ n <= minutesBetweenDates from windowEnd /\ scheduled + n <= dayCap
      /\ fits windowEnd dayCap (addMinutes from n) (scheduled + n) rest
  end.

Definition sumZ (l : list Z) : Z := fold_right Z.add 0 l.

Inductive packed (names : list string) (dayCap : Z)
    : list Slot -> Z -> Z -> list PlanItem -> Prop :=
| packed_stop windows scheduled cursor :
    packed names dayCap windows scheduled cursor []
| packed_window window windows scheduled cursor lens later :
    fits (slot_end window) dayCap (slot_start window) scheduled lens ->
    packed names dayCap windows (scheduled + sumZ lens)
           (cursor + Z.of_nat (List.length lens)) later ->
    packed names dayCap (window :: windows) scheduled cursor
           (blocks names cursor (slot_start window) lens ++ later).

(** The sessions [buildStructuredPlan] packs into the windows of a day, none
    when no minute is free or no block length is preferred, and the subject
    cursor the day leaves behind. *)
Definition packDay (subjectNames : list string) (maxStudyMinutesPerDay : Z)
    (windows : list Slot) (cursor : Z) : option PackState :=
  let availableMinutes := availableMinutesOf windows in
  if availableMinutes =? 0 then Some (mkPack 0 [] cursor)
  else
    let preferredBlock :=
      choosePreferredBlockMinutes availableMinutes (Z.of_nat (List.length subjectNames)) in
    if preferredBlock =? 0 then Some (mkPack 0 [] cursor)
    else
      let dayCap := Z.min maxStudyMinutesPerDay availableMinutes in
      packWindows (packFuel dayCap) subjectNames preferredBlock dayCap windows
                  (mkPack 0 [] cursor).

(** The titles round-robin assignment gives to [n] sessions in a row, the
    first of them taking the subject at [cursor]. *)
Definition roundRobin (names : list string) (cursor : Z) (n : nat) : list string :=
  map (fun k => ("Study " ++ subjectAt names (cursor + Z.of_nat k))%string) (seq 0 n).

(** The free slots and breaks of a day, as [buildStructuredPlan] computes
    them. *)
Definition dayWindow (anchor : Instant) (dayIndex : Z) (st et : TimeOfDay)
    : Instant * Instant :=
  getDailyWindow anchor dayIndex st et.

Definition dayBreaks (anchor : Instant) (dayIndex : Z) (st et : TimeOfDay)
    : list Break :=
  let '(dayStart, dayEnd) := getDailyWindow anchor dayIndex st et in
  buildBreaksForDay anchor dayIndex dayStart dayEnd.

Definition daySlots (anchor : Instant) (dayIndex : Z) (st et : TimeOfDay)
    : list Slot :=
  let '(dayStart, dayEnd) := getDailyWindow anchor dayIndex st et in
  buildStudyWindows dayStart dayEnd (dayBreaks anchor dayIndex st et).

(** The stretches between breaks that [buildStudyWindows] walks over, the
    ones it discards for being short included. *)
Definition dayStretches (anchor : Instant) (dayIndex : Z) (st et : TimeOfDay)
    : list Slot :=
  let '(dayStart, dayEnd) := getDailyWindow anchor dayIndex st et in
  carveWindows dayEnd dayStart (sortBy brk_start (dayBreaks anchor dayIndex st et)).

Definition inSomeBreak (breaks : list Break) (t : Instant) : Prop :=
  exists b, In b breaks /\ inBreak t b.

Definition inSomeSlot (slots : list Slot) (t : Instant) : Prop :=
  exists s, In s slots /\ inSlot t s.

(** The complement relationship as the design document words it: slots and
    breaks together are the window, and nothing is counted twice. *)
Definition complementOfBreaks (anchor : Instant) (dayIndex : Z)
    (st et : TimeOfDay) : Prop :=
  let '(dayStart, dayEnd) := dayWindow anchor dayIndex st et in
  let breaks := dayBreaks anchor dayIndex st et in
  let slots := daySlots anchor dayIndex st et in
  (forall t, within dayStart dayEnd t <-> inSomeBreak breaks t \/ inSomeSlot slots t)
  /\ (forall t, ~ (inSomeBreak breaks t /\ inSomeSlot slots t)).

(** The two kinds of item the engine makes: a study session, whose title
    begins with [Study], and a fixed break, whose title does not.  Neither
    carries a subject reference. *)
Definition sessionTitle (it : PlanItem) : Prop :=
  exists name, title it = ("Study " ++ name)%string.

Definition breakTitle (it : PlanItem) : Prop :=
  exists spec, In spec FIXED_BREAKS /\ title it = fb_title spec
               /\ String.prefix "Study" (title it) = false.

Definition engineItem (it : PlanItem) : Prop :=
  subjectId it = None /\ (sessionTitle it \/ breakTitle it).

(** The titles of the study sessions of a plan, in the order of the plan. *)
Definition sessionTitles (items : list PlanItem) : list string :=
  map title (filter isStudyItem items).

(** Moving intervals and items along the time line by [t] milliseconds. *)
Definition shiftBreak (t : Z) (b : Break) : Break :=
  mkBreak (brk_title b) (brk_start b + t) (brk_end b + t).

Definition shiftSlot (t : Z) (s : Slot) : Slot :=
  mkSlot (slot_start s + t) (slot_end s + t).

Definition shiftItem (t : Z) (it : PlanItem) : PlanItem :=
  mkItem (subjectId it) (title it) (start it + t) (end_ it + t) (completed it).

Definition shiftState (t : Z) (st : PackState) : PackState :=
  mkPack (minutesScheduled st) (map (shiftItem t) (sessions st)) (subjectCursor st).

Definition shiftDay (t : Z) (day : list PlanItem * Z) : list PlanItem * Z :=
  (map (shiftItem t) (fst day), snd day).

(** ** The plan request handler

    [createPlan] reads the request, checks it, calls the engine and checks
    what comes back.  It is embedded from the values of its locals
    [requestedDays] ([None] for [NaN]), [planAnchor] ([None] for an invalid
    date) and [parsedMaxHours]; saving the plan is left to the caller.  The
    subjects are an array of strings, on which [String] changes nothing, or
    one string.  The engine is embedded for whole hours and minutes: the
    handler gives [None] when a time parses to a number with a fraction. *)

(** [s.trim()] *)
Definition trimString (s : string) : string :=
  string_of_list_ascii (JS.trim (list_ascii_of_string s)).

Inductive SubjectsInput :=
| SubjectsArray (names : list string)
| SubjectsString (s : string)
| SubjectsOther.

(** [s.length > 0] *)
Definition nonEmpty (s : string) : bool := negb (String.length s =? 0)%nat.

Definition normalizeSubjects (subjectsInput : SubjectsInput) : list string :=
  match subjectsInput with
  | SubjectsArray names => filter nonEmpty (map trimString names)
  | SubjectsString s => filter nonEmpty (map trimString (JS.split "," s))
  | SubjectsOther => []
  end.

(** A destructuring default: it stands in for [undefined] only. *)
Definition withDefault (default : string) (value : JS.Value) : JS.Value :=
  match value with
  | JS.VUndefined => JS.VString default
  | _ => value
  end.

(** The whole number a JavaScript number is, if it is one. *)
Definition wholeNumber (n : JS.Num) : option Z :=
  match n with
  | JS.Finite q => if Qeq_bool (inject_Z (Qfloor q)) q then Some (Qfloor q) else None
  | _ => None
  end.

Definition wholeTime (parsed : ParsedTime) : option TimeOfDay :=
  match wholeNumber (pt_hours parsed), wholeNumber (pt_minutes parsed) with
  | Some h, Some m => Some (mkTime h m)
  | _, _ => None
  end.

(** [Math.max(1, Math.min(MAX_PLANNED_DAYS, Number.isNaN(requestedDays) ? 1 :
    requestedDays))] *)
Definition clampDays (requestedDays : option Z) : Z :=
  Z.max 1 (Z.min MAX_PLANNED_DAYS
             (match requestedDays with None => 1 | Some n => n end)).

Definition effectiveWindowMinutes (startTime endTime : TimeOfDay) : Z :=
  let startMinutes := hours startTime * 60 + minutes startTime in
  let endMinutes := hours endTime * 60 + minutes endTime in
  let windowMinutes := endMinutes - startMinutes in
  if windowMinutes <=? 0 then windowMinutes + 24 * 60 else windowMinutes.

(** [Math.round(q)]: the nearest integer, halves going up.  The product it
    is applied to is taken exactly. *)
Definition mathRound (q : Q) : Z := Qfloor (q + (1 # 2)).

Definition deriveMaxStudyMinutes (parsedMaxHours : JS.Num) (windowMinutes : Z) : Z :=
  let fallbackHours :=
    Qmin (inject_Z MAX_STUDY_HOURS_PER_DAY) (inject_Z windowMinutes / 60) in
  let boundedHours :=
    match parsedMaxHours with
    | JS.Finite q => q
    | _ => fallbackHours
    end in
  let boundedHours := Qmin (inject_Z MAX_STUDY_HOURS_PER_DAY) (Qmax 1 boundedHours) in
  Z.min (mathRound (boundedHours * 60)) windowMinutes.

(** A reply with status 400 and its message, or with status 201 and the
    items of the plan that was made. *)
Inductive PlanResponse :=
| BadRequest (message : string)
| Created (items : list PlanItem).

Definition NO_SUBJECT : string := "At least one subject is required".
Definition BAD_START_DATE : string := "Invalid start date format".
Definition WINDOW_TOO_SHORT : string :=
  "Daily availability window is too short for any study session".
Definition UNABLE_TO_BUILD : string :=
  "Unable to build a study plan with the provided availability. Try extending your study window or reducing subjects.".
Definition PLAN_TOO_LARGE : string :=
  "Generated plan is too large. Reduce the planning window or subject list.".

Definition createPlan (subjectsInput : SubjectsInput)
    (dailyStartTime dailyEndTime : JS.Value) (requestedDays : option Z)
    (planAnchor : option Instant) (parsedMaxHours : JS.Num)
    : option PlanResponse :=
  let dailyStartTime := withDefault "09:00" dailyStartTime in
  let dailyEndTime := withDefault "17:00" dailyEndTime in
  let subjectNames := normalizeSubjects subjectsInput in
  if (List.length subjectNames =? 0)%nat then Some (BadRequest NO_SUBJECT)
  else
    match planAnchor with
    | None => Some (BadRequest BAD_START_DATE)
    | Some planAnchor =>
        match parseTimeString dailyStartTime with
        | JS.Throw message => Some (BadRequest message)
        | JS.Return startParsed =>
            match parseTimeString dailyEndTime with
            | JS.Throw message => Some (BadRequest message)
            | JS.Return endParsed =>
                match wholeTime startParsed, wholeTime endParsed with
                | Some startTime, Some endTime =>
                    let totalDays := clampDays requestedDays in
                    let windowMinutes := effectiveWindowMinutes startTime endTime in
                    if windowMinutes <? MIN_BLOCK_MINUTES
                    then Some (BadRequest WINDOW_TOO_SHORT)
                    else
                      let maxStudyMinutesPerDay :=
                        deriveMaxStudyMinutes parsedMaxHours windowMinutes in
                      match buildStructuredPlan
                              (mkRequest planAnchor subjectNames totalDays
                                         startTime endTime maxStudyMinutesPerDay) with
                      | None => None
                      | Some planItems =>
                          let studyItemCount :=
                            List.length (filter isStudyItem planItems) in
                          if (studyItemCount =? 0)%nat
                          then Some (BadRequest UNABLE_TO_BUILD)
                          else if (1000 <? List.length planItems)%nat
                          then Some (BadRequest PLAN_TOO_LARGE)
                          else Some (Created planItems)
                      end
                | _, _ => None
                end
            end
        end
    end.




(** ** Marking an item as completed

    [updatePlanItemCompletion] works on the latest plan of the user, [None]
    when there is none; the items of a stored plan carry the identifiers the
    store gave them.  The reply comes with the plan as it is stored
    afterwards. *)

Record StoredItem := mkStored { item_id : ObjectId; stored : PlanItem }.

(** [plan.items.id(itemId)]: the first item with that identifier. *)
Fixpoint findItem (itemId : ObjectId) (items : list StoredItem) : option StoredItem :=
  match items with
  | [] => None
  | it :: rest => if String.eqb (item_id it) itemId then Some it else findItem itemId rest
  end.

Definition withCompleted (completed : bool) (it : StoredItem) : StoredItem :=
  mkStored (item_id it)
           (mkItem (subjectId (stored it)) (title (stored it)) (start (stored it))
                   (end_ (stored it)) completed).

(** [item.completed = completed] on the item [findItem] finds. *)
Fixpoint setCompleted (itemId : ObjectId) (completed : bool) (items : list StoredItem)
    : list StoredItem :=
  match items with
  | [] => []
  | it :: rest =>
      if String.eqb (item_id it) itemId then withCompleted completed it :: rest
      else it :: setCompleted itemId completed rest
  end.

Inductive UpdateResponse :=
| UpdateRejected (status : Z) (message : string)
| UpdateOk (item : StoredItem).

Definition updatePlanItemCompletion (latest : option (list StoredItem))
    (itemId : ObjectId) (completed : JS.Value)
    : UpdateResponse * option (list StoredItem) :=
  match completed with
  | JS.VBoolean completed =>
      match latest with
      | None => (UpdateRejected 404 "No study plan found", latest)
      | Some items =>
          match findItem itemId items with
          | None => (UpdateRejected 404 "Plan item not found", latest)
          | Some it =>
              (UpdateOk (withCompleted completed it),
               Some (setCompleted itemId completed items))
          end
      end
  | _ => (UpdateRejected 400 "completed must be a boolean", latest)
  end.

(** What marking an item must leave alone: identifiers, titles and times. *)
Definition frozenPart (it : StoredItem) : ObjectId * string * Instant * Instant :=
  (item_id it, title (stored it), start (stored it), end_ (stored it)).

(** ** Pushing a plan to the calendar

    The loop of [pushPlanToGoogle] over the items of the latest plan and the
    reply made of its tally.  What the calendar answers to an insertion is
    given by [insert]; a stored date that is no date is [None]. *)









(** ** Names of uploaded files

    [name.replace(/^[0-9]+-[0-9]+-/, '')], by which [getMaterials] and
    [getDatesheet] show a stored file under its original name. *)

Definition isDigit (c : ascii) : bool :=
  let n := nat_of_ascii c in (48 <=? n)%nat && (n <=? 57)%nat.

(** The digits at the head of a name, counted, and what follows them. *)
Fixpoint skipDigits (l : list ascii) : nat * list ascii :=
  match l with
  | [] => (O, [])
  | c :: r =>
      if isDigit c then let '(n, rest) := skipDigits r in (S n, rest)
      else (O, l)
  end.

(** One or more digits and a dash, taken off the head of a name. *)
Definition skipNumberDash (l : list ascii) : option (list ascii) :=
  match skipDigits l with
  | (S _, c :: rest) => if Ascii.eqb c "-" then Some rest else None
  | _ => None
  end.

Definition originalName (name : string) : string :=
  let l := list_ascii_of_string name in
  match skipNumberDash l with
  | Some afterFirst =>
      match skipNumberDash afterFirst with
      | Some rest => string_of_list_ascii rest
      | None => name
      end
  | None => name
  end.

(** ** Notions for the further properties of the engine *)

(** An item that lasts [mins] minutes to the millisecond. *)
Definition lasts (mins : Z) (it : PlanItem) : Prop :=
  end_ it = addMinutes (start it) mins.

(** What the timetable shows of an item: whether it is a study session, and
    when it starts and ends. *)
Definition itemShape (it : PlanItem) : bool * Instant * Instant :=
  (isStudyItem it, start it, end_ it).

(** What a packing state shows when the subjects are left out: the minutes
    scheduled and the shapes of the sessions. *)
Definition shapeState (st : PackState) : Z * list (bool * Instant * Instant) :=
  (minutesScheduled st, map itemShape (sessions st)).

Definition shapeStart (shape : bool * Instant * Instant) : Instant := snd (fst shape).

(** A request with another anchor date. *)
Definition withAnchor (anchor : Instant) (req : PlanRequest) : PlanRequest :=
  mkRequest anchor (subjectNames req) (totalDays req) (startTime req)
            (endTime req) (maxStudyMinutesPerDay req).

(** ** Proof automation *)

Ltac zdiv := Z.div_mod_to_equations; lia.

Ltac unfold_dates :=
  unfold clock, setHours, addDays, addMinutes, startOfDay,
    MS_PER_DAY, MS_PER_HOUR, MS_PER_MINUTE in *.

(** ** Date arithmetic *)

Lemma startOfDay_spec (d : Instant) :
  startOfDay d <= d < startOfDay d + MS_PER_DAY.
Proof. unfold_dates. zdiv. Qed.

Lemma addDays_0 (d : Instant) : addDays d 0 = d.
Proof. unfold addDays. lia. Qed.

Lemma startOfDay_addDays (d : Instant) (n : Z) :
  startOfDay (addDays d n) = addDays (startOfDay d) n.
Proof. unfold_dates. zdiv. Qed.

Lemma startOfDay_setHours (d : Instant) (h m : Z) :
  0 <= h <= 23 -> 0 <= m <= 59 -> startOfDay (setHours d h m) = startOfDay d.
Proof. intros Hh Hm. unfold_dates. zdiv. Qed.

Lemma setHours_addDays (d : Instant) (n h m : Z) :
  setHours (addDays d n) h m = addDays (setHours d h m) n.
Proof. unfold_dates. zdiv. Qed.

Lemma setHours_midnight_idem (d : Instant) (h m : Z) :
  setHours (setHours d 0 0) h m = setHours d h m.
Proof. unfold_dates. zdiv. Qed.

Lemma wholeMinute_setHours (d : Instant) (h m : Z) : wholeMinute (setHours d h m).
Proof.
  exists (d / MS_PER_DAY * 1440 + h * 60 + m). unfold_dates. lia.
Qed.

Lemma wholeMinute_addDays (d : Instant) (n : Z) :
  wholeMinute d -> wholeMinute (addDays d n).
Proof. intros [k Hk]. exists (k + n * 1440). unfold_dates. lia. Qed.

Lemma wholeMinute_addMinutes (d : Instant) (n : Z) :
  wholeMinute d -> wholeMinute (addMinutes d n).
Proof. intros [k Hk]. exists (k + n). unfold_dates. lia. Qed.

Lemma minutesBetweenDates_nonneg (s e : Instant) : 0 <= minutesBetweenDates s e.
Proof. unfold minutesBetweenDates. lia. Qed.

Lemma minutesBetweenDates_exact (s e : Instant) :
  wholeMinute s -> wholeMinute e -> s <= e ->
  minutesBetweenDates s e * MS_PER_MINUTE = e - s.
Proof.
  intros [a Ha] [b Hb] Hle.
  unfold minutesBetweenDates, roundDiv, MS_PER_MINUTE in *. subst. zdiv.
Qed.

Lemma minutesBetweenDates_addMinutes (s : Instant) (n : Z) :
  0 <= n -> minutesBetweenDates s (addMinutes s n) = n.
Proof.
  intros Hn. unfold minutesBetweenDates, roundDiv, addMinutes, MS_PER_MINUTE. zdiv.
Qed.

Lemma minutesBetweenDates_backwards (s e : Instant) :
  e <= s -> minutesBetweenDates s e = 0.
Proof.
  intros Hle. unfold minutesBetweenDates, roundDiv, MS_PER_MINUTE. zdiv.
Qed.

(** ** The stable sort *)

Section SortByFacts.
Context {A : Type} (key : A -> Z).

Lemma In_insertBy (x y : A) (l : list A) :
  In y (insertBy key x l) <-> y = x \/ In y l.
Proof.
  induction l as [|z l IH]; simpl.
  - intuition.
  - destruct (key x <=? key z); simpl; rewrite ?IH; intuition.
Qed.

Lemma In_sortBy (y : A) (l : list A) : In y (sortBy key l) <-> In y l.
Proof.
  induction l as [|x l IH]; simpl.
  - tauto.
  - rewrite In_insertBy, IH. intuition.
Qed.

Lemma Forall_sortBy (P : A -> Prop) (l : list A) :
  Forall P (sortBy key l) <-> Forall P l.
Proof.
  rewrite !Forall_forall. split; intros H x Hx; apply H; now apply In_sortBy.
Qed.

Lemma length_insertBy (x : A) (l : list A) :
  List.length (insertBy key x l) = S (List.length l).
Proof.
  induction l as [|z l IH]; simpl; auto.
  destruct (key x <=? key z); simpl; auto.
Qed.

Lemma length_sortBy (l : list A) :
  List.length (sortBy key l) = List.length l.
Proof.
  induction l as [|x l IH]; simpl; auto.
  now rewrite length_insertBy, IH.
Qed.

Lemma insertBy_sorted (x : A) (l : list A) :
  StronglySorted (keyLe key) l -> StronglySorted (keyLe key) (insertBy key x l).
Proof.
  induction 1 as [|z l Hl IH Hz]; simpl.
  - constructor; constructor.
  - destruct (Z.leb_spec (key x) (key z)) as [Hle|Hgt].
    + constructor; [constructor; assumption|].
      constructor; [exact Hle|].
      rewrite Forall_forall in *. intros w Hw. specialize (Hz w Hw).
      unfold keyLe in *. lia.
    + constructor; [exact IH|].
      rewrite Forall_forall in *. intros w Hw.
      apply In_insertBy in Hw. destruct Hw as [->|Hw].
      * unfold keyLe. lia.
      * now apply Hz.
Qed.

Lemma sortBy_sorted (l : list A) : StronglySorted (keyLe key) (sortBy key l).
Proof.
  induction l as [|x l IH]; simpl.
  - constructor.
  - now apply insertBy_sorted.
Qed.

(** A list already in order is left as it is. *)
Lemma insertBy_head (x : A) (l : list A) :
  Forall (keyLe key x) l -> insertBy key x l = x :: l.
Proof.
  destruct l as [|z l]; simpl; auto.
  intros H. inversion H as [|? ? Hz _]; subst.
  unfold keyLe in Hz. apply Z.leb_le in Hz. now rewrite Hz.
Qed.

Lemma sortBy_id (l : list A) : StronglySorted (keyLe key) l -> sortBy key l = l.
Proof.
  induction 1 as [|x l Hl IH Hx]; simpl; auto.
  rewrite IH. now apply insertBy_head.
Qed.

(** Stability: sorting commutes with selecting the elements that satisfy
    a test. *)
Lemma filter_insertBy (p : A -> bool) (x : A) (l : list A) :
  StronglySorted (keyLe key) l ->
  filter p (insertBy key x l) =
  if p x then insertBy key x (filter p l) else filter p l.
Proof.
  induction 1 as [|z l Hl IH Hz]; simpl.
  - destruct (p x); reflexivity.
  - destruct (Z.leb_spec (key x) (key z)) as [Hle|Hgt]; simpl.
    + destruct (p x) eqn:Hpx; [|reflexivity].
      destruct (p z) eqn:Hpz; simpl.
      * apply Z.leb_le in Hle. now rewrite Hle.
      * symmetry. apply insertBy_head.
        rewrite Forall_forall in *. intros w Hw.
        apply filter_In in Hw. destruct Hw as [Hw _].
        specialize (Hz w Hw). unfold keyLe in *. lia.
    + rewrite IH. destruct (p x), (p z); simpl; auto.
      apply Z.leb_gt in Hgt. now rewrite Hgt.
Qed.

Lemma filter_sortBy (p : A -> bool) (l : list A) :
  filter p (sortBy key l) = sortBy key (filter p l).
Proof.
  induction l as [|x l IH]; simpl; auto.
  rewrite filter_insertBy by apply sortBy_sorted.
  rewrite IH. destruct (p x); reflexivity.
Qed.
End SortByFacts.

(** ** Sorting intervals that do not overlap *)

Section SortIntervals.
Context {A : Type} (lo hi : A -> Instant).

Lemma precedes_keyLe (a b : A) :
  proper lo hi a -> precedes lo hi a b -> lo a < lo b.
Proof. unfold proper, precedes. lia. Qed.

Lemma insertBy_precedes (x : A) (l : list A) :
  proper lo hi x -> Forall (proper lo hi) l -> Forall (apart lo hi x) l ->
  StronglySorted (precedes lo hi) l ->
  StronglySorted (precedes lo hi) (insertBy lo x l).
Proof.
  intros Hx Hl Hap Hs. revert Hl Hap.
  induction Hs as [|z l Hs IH Hz]; intros Hl Hap; simpl.
  - constructor; constructor.
  - inversion Hl as [|? ? Hpz Hl']; subst.
    inversion Hap as [|? ? Hxz Hap']; subst.
    unfold proper, apart, precedes in Hx, Hpz, Hxz.
    destruct (Z.leb_spec (lo x) (lo z)) as [Hle|Hgt].
    + constructor; [constructor; assumption|].
      constructor; [unfold precedes; lia|].
      rewrite Forall_forall in *. intros w Hw.
      specialize (Hz w Hw). specialize (Hl' w Hw).
      unfold proper, precedes in *. lia.
    + constructor; [now apply IH|].
      rewrite Forall_forall in *. intros w Hw.
      apply In_insertBy in Hw. destruct Hw as [->|Hw].
      * unfold precedes. lia.
      * now apply Hz.
Qed.

Lemma sortBy_precedes (l : list A) :
  Forall (proper lo hi) l -> ForallOrdPairs (apart lo hi) l ->
  StronglySorted (precedes lo hi) (sortBy lo l).
Proof.
  intros Hl Hp. induction Hp as [|x l Hx Hp IH]; simpl.
  - constructor.
  - inversion Hl as [|? ? Hpx Hl']; subst.
    apply insertBy_precedes; auto.
    + now apply Forall_sortBy.
    + now apply Forall_sortBy.
Qed.

Lemma ForallOrdPairs_app (R : A -> A -> Prop) (l1 l2 : list A) :
  ForallOrdPairs R l1 -> ForallOrdPairs R l2 ->
  (forall a b, In a l1 -> In b l2 -> R a b) ->
  ForallOrdPairs R (l1 ++ l2).
Proof.
  intros H1 H2 H12. induction H1 as [|x l1 Hx H1 IH]; simpl; auto.
  constructor.
  - apply Forall_app. split; auto.
    apply Forall_forall. intros b Hb. apply H12; simpl; auto.
  - apply IH. intros a b Ha Hb. apply H12; simpl; auto.
Qed.

Lemma StronglySorted_ForallOrdPairs (R : A -> A -> Prop) (l : list A) :
  StronglySorted R l -> ForallOrdPairs R l.
Proof. induction 1; constructor; auto. Qed.

Lemma ForallOrdPairs_weaken (R S : A -> A -> Prop) (l : list A) :
  (forall a b, R a b -> S a b) -> ForallOrdPairs R l -> ForallOrdPairs S l.
Proof.
  intros HRS. induction 1 as [|x l Hx Hl IH]; constructor; auto.
  eapply Forall_impl; [|exact Hx]. auto.
Qed.

Lemma StronglySorted_app (R : A -> A -> Prop) (l1 l2 : list A) :
  StronglySorted R l1 -> StronglySorted R l2 ->
  (forall a b, In a l1 -> In b l2 -> R a b) ->
  StronglySorted R (l1 ++ l2).
Proof.
  intros H1 H2 H12. induction H1 as [|x l1 H1 IH Hx]; simpl; auto.
  constructor.
  - apply IH. intros a b Ha Hb. apply H12; simpl; auto.
  - apply Forall_app. split; auto.
    apply Forall_forall. intros b Hb. apply H12; simpl; auto.
Qed.
End SortIntervals.

(** ** The break placer *)

Lemma placeBreak_spec (anchor : Instant) (dayIndex : Z) (ws we : Instant)
    (spec : FixedBreak) :
  startHour spec < endHour spec ->
  placeBreak (clock anchor dayIndex 0 0) ws we spec =
  let b := shiftedCandidate anchor dayIndex ws spec in
  if (ws <=? brk_start b) && (brk_end b <=? we) then [b] else [].
Proof.
  intros Hlt. unfold placeBreak, shiftedCandidate, clock.
  rewrite !setHours_midnight_idem.
  set (s := setHours (addDays anchor dayIndex) (startHour spec) 0).
  set (e := setHours (addDays anchor dayIndex) (endHour spec) 0).
  assert (Hse : s < e) by (subst s e; unfold_dates; lia).
  destruct (Z.leb_spec e s) as [Hle|_]; [lia|].
  destruct (s <? ws); simpl; rewrite ?addDays_0; reflexivity.
Qed.

Lemma fixed_breaks_hours (spec : FixedBreak) :
  In spec FIXED_BREAKS -> 0 <= startHour spec /\ endHour spec = startHour spec + 1
                          /\ endHour spec <= 23.
Proof.
  simpl. intros [<-|[<-|[<-|[]]]]; simpl; lia.
Qed.

Lemma shiftedCandidate_shape (anchor : Instant) (dayIndex : Z) (ws : Instant)
    (spec : FixedBreak) :
  exists k, (k = 0 \/ k = 1) /\
    brk_start (shiftedCandidate anchor dayIndex ws spec)
      = clock anchor dayIndex 0 0 + startHour spec * MS_PER_HOUR + k * MS_PER_DAY /\
    brk_end (shiftedCandidate anchor dayIndex ws spec)
      = clock anchor dayIndex 0 0 + endHour spec * MS_PER_HOUR + k * MS_PER_DAY.
Proof.
  unfold shiftedCandidate.
  destruct (_ <? ws); [exists 1|exists 0]; simpl; unfold_dates; lia.
Qed.

Lemma In_placed (anchor : Instant) (dayIndex : Z) (ws we : Instant) (b : Break) :
  In b (flat_map (placeBreak (clock anchor dayIndex 0 0) ws we) FIXED_BREAKS) <->
  exists spec, In spec FIXED_BREAKS /\ b = shiftedCandidate anchor dayIndex ws spec
               /\ ws <= brk_start b /\ brk_end b <= we.
Proof.
  rewrite in_flat_map. split.
  - intros (spec & Hin & Hb). exists spec. split; [exact Hin|].
    rewrite placeBreak_spec in Hb by (apply fixed_breaks_hours in Hin; lia).
    cbv zeta in Hb.
    destruct (Z.leb_spec ws (brk_start (shiftedCandidate anchor dayIndex ws spec)));
      destruct (Z.leb_spec (brk_end (shiftedCandidate anchor dayIndex ws spec)) we);
      simpl in Hb; try contradiction.
    destruct Hb as [<-|[]]. auto.
  - intros (spec & Hin & -> & Hs & He). exists spec. split; [exact Hin|].
    rewrite placeBreak_spec by (apply fixed_breaks_hours in Hin; lia).
    cbv zeta. apply Z.leb_le in Hs, He. rewrite Hs, He. simpl. auto.
Qed.

Lemma In_buildBreaksForDay (anchor : Instant) (dayIndex : Z) (ws we : Instant)
    (b : Break) :
  In b (buildBreaksForDay anchor dayIndex ws we) <->
  exists spec, In spec FIXED_BREAKS /\ b = shiftedCandidate anchor dayIndex ws spec
               /\ ws <= brk_start b /\ brk_end b <= we.
Proof.
  unfold buildBreaksForDay. rewrite In_sortBy. apply In_placed.
Qed.

Lemma breaks_proper (anchor : Instant) (dayIndex : Z) (ws we : Instant) (b : Break) :
  In b (buildBreaksForDay anchor dayIndex ws we) ->
  brk_end b = brk_start b + MS_PER_HOUR /\ wholeMinute (brk_start b)
  /\ wholeMinute (brk_end b) /\ ws <= brk_start b /\ brk_end b <= we.
Proof.
  intros Hb. apply In_buildBreaksForDay in Hb.
  destruct Hb as (spec & Hin & -> & Hs & He).
  apply fixed_breaks_hours in Hin.
  repeat split; try assumption.
  - destruct (shiftedCandidate_shape anchor dayIndex ws spec) as (k & _ & -> & ->).
    unfold MS_PER_HOUR. lia.
  - unfold shiftedCandidate. simpl.
    apply wholeMinute_addDays, wholeMinute_setHours.
  - unfold shiftedCandidate. simpl.
    apply wholeMinute_addDays, wholeMinute_setHours.
Qed.

Lemma placed_apart (anchor : Instant) (dayIndex : Z) (ws we : Instant) :
  ForallOrdPairs (apart brk_start brk_end)
    (flat_map (placeBreak (clock anchor dayIndex 0 0) ws we) FIXED_BREAKS).
Proof.
  unfold FIXED_BREAKS. simpl flat_map.
  rewrite !placeBreak_spec by (simpl; lia). cbv zeta. rewrite app_nil_r.
  match goal with
  | |- context [shiftedCandidate _ _ _ ?l0 :: nil] =>
      destruct (shiftedCandidate_shape anchor dayIndex ws l0) as (kl & Hkl & Hls & Hle);
      set (l := shiftedCandidate anchor dayIndex ws l0) in *; clearbody l
  end.
  match goal with
  | |- context [shiftedCandidate _ _ _ ?s0 :: nil] =>
      destruct (shiftedCandidate_shape anchor dayIndex ws s0) as (ks & Hks & Hss & Hse);
      set (s := shiftedCandidate anchor dayIndex ws s0) in *; clearbody s
  end.
  match goal with
  | |- context [shiftedCandidate _ _ _ ?d0 :: nil] =>
      destruct (shiftedCandidate_shape anchor dayIndex ws d0) as (kd & Hkd & Hds & Hde);
      set (d := shiftedCandidate anchor dayIndex ws d0) in *; clearbody d
  end.
  simpl in Hls, Hle, Hss, Hse, Hds, Hde. unfold MS_PER_DAY, MS_PER_HOUR in *.
  assert (Hls' : apart brk_start brk_end l s) by (unfold apart, precedes; lia).
  assert (Hld' : apart brk_start brk_end l d) by (unfold apart, precedes; lia).
  assert (Hsd' : apart brk_start brk_end s d) by (unfold apart, precedes; lia).
  repeat match goal with
         | |- context [if ?c then _ else _] => destruct c
         end; simpl; repeat (first [assumption | constructor]).
Qed.

Lemma breaks_sorted_apart (anchor : Instant) (dayIndex : Z) (ws we : Instant) :
  StronglySorted breakBefore (buildBreaksForDay anchor dayIndex ws we).
Proof.
  unfold buildBreaksForDay, breakBefore. fold (clock anchor dayIndex 0 0).
  apply sortBy_precedes.
  - apply Forall_forall. intros b Hb.
    assert (Hb' : In b (buildBreaksForDay anchor dayIndex ws we))
      by (unfold buildBreaksForDay; now apply In_sortBy).
    apply breaks_proper in Hb'. unfold proper, MS_PER_HOUR in *. lia.
  - apply placed_apart.
Qed.

(** ** The free-slot calculator *)

Section CarveWindows.
Variable dayEnd : Instant.

Lemma carve_bounds (breaks : list Break) :
  Forall (fun b => brk_start b <= dayEnd) breaks ->
  forall cursor s, In s (carveWindows dayEnd cursor breaks) ->
  cursor <= slot_start s /\ slot_start s < slot_end s /\ slot_end s <= dayEnd.
Proof.
  induction 1 as [|b breaks Hb Hbs IH]; intros cursor s; simpl.
  - destruct (Z.ltb_spec cursor dayEnd); simpl; [|tauto].
    intros [<-|[]]. simpl. lia.
  - rewrite in_app_iff. intros [Hs|Hs].
    + destruct (Z.ltb_spec cursor (brk_start b)); simpl in Hs; [|tauto].
      destruct Hs as [<-|[]]. simpl. lia.
    + apply IH in Hs.
      destruct (Z.ltb_spec cursor (brk_end b)); lia.
Qed.

Lemma carve_whole (breaks : list Break) :
  wholeMinute dayEnd ->
  Forall (fun b => wholeMinute (brk_start b) /\ wholeMinute (brk_end b)) breaks ->
  forall cursor s, wholeMinute cursor -> In s (carveWindows dayEnd cursor breaks) ->
  wholeMinute (slot_start s) /\ wholeMinute (slot_end s).
Proof.
  intros Hend. induction 1 as [|b breaks [Hb1 Hb2] Hbs IH]; intros cursor s Hc; simpl.
  - destruct (cursor <? dayEnd); simpl; [|tauto].
    intros [<-|[]]. simpl. auto.
  - rewrite in_app_iff. intros [Hs|Hs].
    + destruct (cursor <? brk_start b); simpl in Hs; [|tauto].
      destruct Hs as [<-|[]]. simpl. auto.
    + apply IH in Hs; auto.
      destruct (cursor <? brk_end b); auto.
Qed.

(** The stretches come out in order, each over before the next begins. *)
Lemma carve_sorted (breaks : list Break) :
  Forall (proper brk_start brk_end) breaks ->
  Forall (fun b => brk_start b <= dayEnd) breaks ->
  forall cursor, StronglySorted slotBefore (carveWindows dayEnd cursor breaks).
Proof.
  intros Hp Hle. induction Hp as [|b breaks Hb Hbs IH]; intros cursor; simpl.
  - destruct (cursor <? dayEnd); repeat constructor.
  - inversion Hle as [|? ? Hb' Hle']; subst.
    destruct (Z.ltb_spec cursor (brk_start b)); simpl; auto.
    constructor; auto.
    apply Forall_forall. intros s Hs.
    apply carve_bounds in Hs; auto.
    unfold slotBefore, precedes, proper in *. simpl.
    destruct (Z.ltb_spec cursor (brk_end b)); lia.
Qed.

(** No stretch meets a break. *)
Lemma carve_apart (breaks : list Break) :
  StronglySorted (keyLe brk_start) breaks ->
  Forall (fun b => brk_start b <= dayEnd) breaks ->
  forall cursor s b, In s (carveWindows dayEnd cursor breaks) -> In b breaks ->
  slot_end s <= brk_start b \/ brk_end b <= slot_start s.
Proof.
  induction 1 as [|b0 breaks Hs IH Hb0]; intros Hle cursor s b; simpl; [tauto|].
  inversion Hle as [|? ? Hb0' Hle']; subst.
  rewrite in_app_iff. intros [Hin|Hin] [<-|Hb].
  - destruct (cursor <? brk_start b0); simpl in Hin; [|tauto].
    destruct Hin as [<-|[]]. simpl. lia.
  - destruct (cursor <? brk_start b0); simpl in Hin; [|tauto].
    destruct Hin as [<-|[]]. simpl.
    rewrite Forall_forall in Hb0. specialize (Hb0 b Hb). unfold keyLe in Hb0. lia.
  - apply carve_bounds in Hin; auto.
    destruct (Z.ltb_spec cursor (brk_end b0)); lia.
  - eapply IH; eauto.
Qed.

(** Every instant from the cursor to the end of the window is in a break
    or in a stretch. *)
Lemma carve_covers (breaks : list Break) (cursor t : Instant) :
  within cursor dayEnd t ->
  inSomeBreak breaks t \/ inSomeSlot (carveWindows dayEnd cursor breaks) t.
Proof.
  revert cursor. unfold within.
  induction breaks as [|b breaks IH]; intros cursor Ht; simpl.
  - right. exists (mkSlot cursor dayEnd).
    destruct (Z.ltb_spec cursor dayEnd); [|lia].
    split; [now left|]. unfold inSlot, within. simpl. lia.
  - destruct (Z.lt_ge_cases t (brk_start b)) as [Hlt|Hge].
    + right. exists (mkSlot cursor (brk_start b)).
      destruct (Z.ltb_spec cursor (brk_start b)); [|lia].
      split; [now left|]. unfold inSlot, within. simpl. lia.
    + destruct (Z.lt_ge_cases t (brk_end b)) as [Hlt'|Hge'].
      * left. exists b. split; [now left|]. unfold inBreak, within. lia.
      * destruct (IH (if cursor <? brk_end b then brk_end b else cursor))
          as [(b' & Hb' & Ht')|(s & Hs & Ht')].
        -- destruct (Z.ltb_spec cursor (brk_end b)); lia.
        -- left. exists b'. split; [now right|exact Ht'].
        -- right. exists s. split; [|exact Ht'].
           apply in_app_iff. now right.
Qed.
End CarveWindows.

(** The facts about a day's breaks that the free-slot calculator and the
    packer build on. *)
Lemma dayBreaks_facts (anchor : Instant) (dayIndex : Z) (st et : TimeOfDay) :
  let '(dayStart, dayEnd) := dayWindow anchor dayIndex st et in
  let breaks := dayBreaks anchor dayIndex st et in
  Forall (fun b => dayStart <= brk_start b /\ brk_end b <= dayEnd
                   /\ brk_end b = brk_start b + MS_PER_HOUR
                   /\ wholeMinute (brk_start b) /\ wholeMinute (brk_end b)) breaks
  /\ StronglySorted breakBefore breaks
  /\ sortBy brk_start breaks = breaks.
Proof.
  unfold dayWindow, dayBreaks.
  destruct (getDailyWindow anchor dayIndex st et) as [dayStart dayEnd].
  split; [|split].
  - apply Forall_forall. intros b Hb. apply breaks_proper in Hb. tauto.
  - apply breaks_sorted_apart.
  - apply sortBy_id. unfold buildBreaksForDay. apply sortBy_sorted.
Qed.

Lemma dayWindow_whole (anchor : Instant) (dayIndex : Z) (st et : TimeOfDay) :
  wholeMinute (fst (dayWindow anchor dayIndex st et))
  /\ wholeMinute (snd (dayWindow anchor dayIndex st et)).
Proof.
  unfold dayWindow, getDailyWindow. simpl. split.
  - apply wholeMinute_setHours.
  - destruct (_ <=? _); [apply wholeMinute_addDays|]; apply wholeMinute_setHours.
Qed.

Lemma dayStretches_facts (anchor : Instant) (dayIndex : Z) (st et : TimeOfDay) :
  let '(dayStart, dayEnd) := dayWindow anchor dayIndex st et in
  let breaks := dayBreaks anchor dayIndex st et in
  let stretches := dayStretches anchor dayIndex st et in
  Forall (fun s => dayStart <= slot_start s /\ slot_start s < slot_end s
                   /\ slot_end s <= dayEnd
                   /\ wholeMinute (slot_start s) /\ wholeMinute (slot_end s)) stretches
  /\ StronglySorted slotBefore stretches
  /\ (forall s b, In s stretches -> In b breaks ->
        slot_end s <= brk_start b \/ brk_end b <= slot_start s)
  /\ (forall t, within dayStart dayEnd t ->
        inSomeBreak breaks t \/ inSomeSlot stretches t).
Proof.
  pose proof (dayBreaks_facts anchor dayIndex st et) as Hb.
  pose proof (dayWindow_whole anchor dayIndex st et) as Hw.
  unfold dayStretches. unfold dayWindow in *.
  destruct (getDailyWindow anchor dayIndex st et) as [dayStart dayEnd].
  destruct Hb as (Hbs & Hsorted & Hid). simpl in Hw. destruct Hw as [Hw1 Hw2].
  rewrite Hid. cbv zeta.
  set (breaks := dayBreaks anchor dayIndex st et) in *.
  assert (Hle : Forall (fun b => brk_start b <= dayEnd) breaks).
  { eapply Forall_impl; [|exact Hbs]. unfold MS_PER_HOUR. simpl. intros b ?. lia. }
  assert (Hprop : Forall (proper brk_start brk_end) breaks).
  { eapply Forall_impl; [|exact Hbs]. unfold proper, MS_PER_HOUR. simpl. intros b ?. lia. }
  split; [|split; [|split]].
  - apply Forall_forall. intros s Hs.
    pose proof (carve_bounds dayEnd breaks Hle dayStart s Hs).
    assert (Hwm : wholeMinute (slot_start s) /\ wholeMinute (slot_end s)).
    { refine (carve_whole dayEnd breaks Hw2 _ dayStart s Hw1 Hs).
      eapply Forall_impl; [|exact Hbs]. simpl. tauto. }
    tauto.
  - now apply carve_sorted.
  - intros s b. apply carve_apart; auto.
    rewrite <- Hid. apply sortBy_sorted.
  - intros t Ht. now apply carve_covers.
Qed.

Lemma In_daySlots (anchor : Instant) (dayIndex : Z) (st et : TimeOfDay) (s : Slot) :
  In s (daySlots anchor dayIndex st et) <->
  In s (dayStretches anchor dayIndex st et)
  /\ MIN_BLOCK_MINUTES <= minutesBetweenDates (slot_start s) (slot_end s).
Proof.
  unfold daySlots, dayStretches, buildStudyWindows.
  destruct (getDailyWindow anchor dayIndex st et) as [dayStart dayEnd].
  rewrite filter_In. unfold slotFits. now rewrite Z.leb_le.
Qed.

(** ** The block sizer *)

Lemma choosePreferredBlockMinutes_cases (availableMinutes subjectCount : Z) :
  choosePreferredBlockMinutes availableMinutes subjectCount = 0
  \/ choosePreferredBlockMinutes availableMinutes subjectCount = MIN_BLOCK_MINUTES
  \/ choosePreferredBlockMinutes availableMinutes subjectCount = MAX_BLOCK_MINUTES.
Proof.
  unfold choosePreferredBlockMinutes.
  destruct (_ || _); auto. destruct (_ && _); auto.
Qed.

Lemma pickBlockLength_cases (preferred slotRemaining capRemaining : Z) :
  0 < preferred ->
  pickBlockLength preferred slotRemaining capRemaining = 0
  \/ (0 < pickBlockLength preferred slotRemaining capRemaining
      /\ pickBlockLength preferred slotRemaining capRemaining <= slotRemaining
      /\ pickBlockLength preferred slotRemaining capRemaining <= capRemaining).
Proof.
  intros Hp. unfold pickBlockLength, MIN_BLOCK_MINUTES.
  destruct (Z.eqb_spec preferred 0); [lia|]. simpl.
  destruct (Z.leb_spec preferred slotRemaining);
    destruct (Z.leb_spec preferred capRemaining); simpl; try lia;
    destruct (Z.leb_spec 60 slotRemaining);
    destruct (Z.leb_spec 60 capRemaining); simpl; lia.
Qed.

(** ** The packer: one window *)

(** Fuel does not shape the result: what the loop returns with some fuel it
    returns with any more. *)
Lemma packSlot_more_fuel (names : list string) (preferred dayCap : Z)
    (windowEnd : Instant) (fuel extra : nat) :
  forall from st st',
  packSlot fuel names preferred dayCap windowEnd from st = Some st' ->
  packSlot (fuel + extra) names preferred dayCap windowEnd from st = Some st'.
Proof.
  induction fuel as [|fuel IH]; intros from st st'; simpl; [discriminate|].
  destruct (_ <? dayCap); auto.
  destruct (_ =? 0); auto.
Qed.

Section Packer.
Variable names : list string.
Variables preferredBlock dayCap : Z.
Hypothesis preferred_pos : 0 < preferredBlock.

Lemma packSlot_total (windowEnd : Instant) :
  forall fuel from st,
  (Z.to_nat (dayCap - minutesScheduled st) < fuel)%nat ->
  exists lens,
    packSlot fuel names preferredBlock dayCap windowEnd from st
    = Some (mkPack (minutesScheduled st + sumZ lens)
                   (sessions st ++ blocks names (subjectCursor st) from lens)
                   (subjectCursor st + Z.of_nat (List.length lens)))
    /\ fits windowEnd dayCap from (minutesScheduled st) lens.
Proof.
  induction fuel as [|fuel IH]; intros from st Hfuel; [lia|].
  simpl.
  destruct (Z.ltb_spec (minutesScheduled st) dayCap) as [Hlt|Hge].
  - set (bl := pickBlockLength preferredBlock
                 (minutesBetweenDates from windowEnd)
                 (dayCap - minutesScheduled st)).
    destruct (pickBlockLength_cases preferredBlock
                (minutesBetweenDates from windowEnd)
                (dayCap - minutesScheduled st) preferred_pos)
      as [H0|(Hpos & Hslot & Hcap)]; fold bl in H0 || fold bl in Hpos, Hslot, Hcap.
    + rewrite H0. simpl. exists []. simpl. split; [|exact I].
      destruct st; simpl. rewrite app_nil_r. do 2 f_equal; lia.
    + destruct (Z.eqb_spec bl 0); [lia|].
      edestruct IH as (lens & Heq & Hfits); [|rewrite Heq]; simpl; [lia|].
      exists (bl :: lens). simpl. split.
      * rewrite <- app_assoc. simpl. do 2 f_equal; lia.
      * repeat split; auto; lia.
  - exists []. simpl. split; [|exact I].
    destruct st; simpl. rewrite app_nil_r. do 2 f_equal; lia.
Qed.

Lemma sumMinutes_app (l1 l2 : list PlanItem) :
  sumMinutes (l1 ++ l2) = sumMinutes l1 + sumMinutes l2.
Proof. induction l1 as [|x l1 IH]; simpl; lia. Qed.

Lemma length_blocks (cursor : Z) (from : Instant) (lens : list Z) :
  List.length (blocks names cursor from lens) = List.length lens.
Proof.
  revert cursor from. induction lens as [|n lens IH]; intros; simpl; auto.
Qed.

Lemma sumMinutes_blocks (windowEnd : Instant) (cursor : Z) :
  forall lens from scheduled,
  fits windowEnd dayCap from scheduled lens ->
  sumMinutes (blocks names cursor from lens) = sumZ lens.
Proof.
  intros lens. revert cursor.
  induction lens as [|n lens IH]; intros cursor from scheduled Hfits; simpl; auto.
  destruct Hfits as (Hn & _ & _ & Hrest).
  unfold itemMinutes at 1. simpl.
  rewrite minutesBetweenDates_addMinutes by lia.
  erewrite IH; eauto.
Qed.

Lemma fits_cap (windowEnd : Instant) :
  forall lens from scheduled,
  fits windowEnd dayCap from scheduled lens ->
  scheduled <= dayCap -> scheduled <= scheduled + sumZ lens <= dayCap.
Proof.
  induction lens as [|n lens IH]; intros from scheduled Hfits Hle; simpl; [lia|].
  destruct Hfits as (Hn & _ & Hcap & Hrest).
  specialize (IH _ _ Hrest Hcap). lia.
Qed.

(** ** The packer: the windows of a day *)

Lemma packWindows_total (windows : list Slot) :
  forall st, 0 <= minutesScheduled st ->
  exists new,
    packWindows (packFuel dayCap) names preferredBlock dayCap windows st
    = Some (mkPack (minutesScheduled st + sumMinutes new)
                   (sessions st ++ new)
                   (subjectCursor st + Z.of_nat (List.length new)))
    /\ packed names dayCap windows (minutesScheduled st) (subjectCursor st) new.
Proof.
  induction windows as [|w windows IH]; intros st Hms; cbn [packWindows].
  - exists []. simpl. split; [|constructor].
    destruct st; simpl. rewrite app_nil_r. do 2 f_equal; lia.
  - destruct (packSlot_total (slot_end w) (packFuel dayCap) (slot_start w) st)
      as (lens & Heq & Hfits); [unfold packFuel; lia|].
    rewrite Heq.
    pose proof (sumMinutes_blocks _ (subjectCursor st) _ _ _ Hfits) as Hsum.
    assert (Hnn : 0 <= sumZ lens).
    { clear - Hfits. revert Hfits. generalize (slot_start w) (minutesScheduled st).
      induction lens as [|n lens IH]; simpl; intros; [lia|].
      destruct Hfits as (? & _ & _ & Hrest). apply IH in Hrest. lia. }
    cbn [minutesScheduled].
    destruct (Z.leb_spec dayCap (minutesScheduled st + sumZ lens)) as [Hfull|Hroom].
    + exists (blocks names (subjectCursor st) (slot_start w) lens). split.
      * rewrite Hsum, length_blocks. reflexivity.
      * rewrite <- (app_nil_r (blocks _ _ _ _)).
        econstructor; [exact Hfits|constructor].
    + edestruct IH as (later & Heq' & Hpacked); [|rewrite Heq']; simpl; [lia|].
      exists (blocks names (subjectCursor st) (slot_start w) lens ++ later). split.
      * rewrite sumMinutes_app, Hsum, length_app, length_blocks, app_assoc.
        do 2 f_equal; lia.
      * econstructor; eauto.
Qed.

(** Once the cap is reached nothing more is packed, whatever windows are
    left. *)
Lemma packWindows_full (windows : list Slot) (st : PackState) :
  dayCap <= minutesScheduled st ->
  windows <> [] ->
  packWindows (packFuel dayCap) names preferredBlock dayCap windows st = Some st.
Proof.
  intros Hfull Hne. destruct windows as [|w windows]; [congruence|].
  simpl. destruct (Z.ltb_spec (minutesScheduled st) dayCap); [lia|].
  destruct (Z.leb_spec dayCap (minutesScheduled st)); [reflexivity|lia].
Qed.

Lemma packWindows_app (windows1 windows2 : list Slot) (st st1 : PackState) :
  packWindows (packFuel dayCap) names preferredBlock dayCap windows1 st = Some st1 ->
  dayCap <= minutesScheduled st1 ->
  windows1 <> [] ->
  packWindows (packFuel dayCap) names preferredBlock dayCap (windows1 ++ windows2) st
  = Some st1.
Proof.
  revert st. induction windows1 as [|w windows1 IH]; intros st Heq Hfull Hne;
    [congruence|].
  cbn [packWindows app] in *.
  destruct (packSlot (packFuel dayCap) names preferredBlock dayCap
              (slot_end w) (slot_start w) st) as [st'|]; [|discriminate].
  destruct (Z.leb_spec dayCap (minutesScheduled st')); [exact Heq|].
  destruct windows1 as [|w1 windows1].
  - simpl in Heq. inversion Heq; subst. lia.
  - apply IH; auto. discriminate.
Qed.
End Packer.

(** ** What a packed day looks like *)

Lemma roundRobin_S (names : list string) (cursor : Z) (n : nat) :
  roundRobin names cursor (S n)
  = ("Study " ++ subjectAt names cursor)%string :: roundRobin names (cursor + 1) n.
Proof.
  unfold roundRobin. cbn [seq map]. rewrite <- seq_shift, map_map.
  f_equal.
  - simpl. now rewrite Z.add_0_r.
  - apply map_ext. intros k. do 2 f_equal. lia.
Qed.

Lemma roundRobin_app (names : list string) (cursor : Z) (n m : nat) :
  roundRobin names cursor (n + m)
  = roundRobin names cursor n ++ roundRobin names (cursor + Z.of_nat n) m.
Proof.
  revert cursor. induction n as [|n IH]; intros cursor.
  - simpl. now rewrite Z.add_0_r.
  - change (S n + m)%nat with (S (n + m)). rewrite !roundRobin_S, IH. simpl.
    do 3 f_equal. lia.
Qed.

Lemma length_roundRobin (names : list string) (cursor : Z) (n : nat) :
  List.length (roundRobin names cursor n) = n.
Proof. unfold roundRobin. now rewrite length_map, length_seq. Qed.

Lemma isStudyItem_session (name : string) (s e : Instant) :
  isStudyItem (studySession name s e) = true.
Proof. reflexivity. Qed.

Lemma isStudyItem_break (b : Break) :
  (exists spec, In spec FIXED_BREAKS /\ brk_title b = fb_title spec) ->
  isStudyItem (breakItem b) = false.
Proof.
  intros (spec & Hin & Ht). unfold isStudyItem, breakItem. simpl. rewrite Ht.
  simpl in Hin. destruct Hin as [<-|[<-|[<-|[]]]]; reflexivity.
Qed.

Lemma StronglySorted_map {A B : Type} (f : A -> B) (R : B -> B -> Prop)
    (l : list A) :
  StronglySorted (fun a b => R (f a) (f b)) l -> StronglySorted R (map f l).
Proof.
  induction 1 as [|x l Hl IH Hx]; simpl; constructor; auto.
  apply Forall_map. exact Hx.
Qed.

Lemma StronglySorted_filter {A : Type} (R : A -> A -> Prop) (p : A -> bool)
    (l : list A) :
  StronglySorted R l -> StronglySorted R (filter p l).
Proof.
  induction 1 as [|x l Hl IH Hx]; simpl; [constructor|].
  destruct (p x); auto. constructor; auto.
  rewrite Forall_forall in *. intros y Hy. apply filter_In in Hy. apply Hx, Hy.
Qed.

Lemma StronglySorted_weaken {A : Type} (R S : A -> A -> Prop) (l : list A) :
  (forall a b, In a l -> In b l -> R a b -> S a b) ->
  StronglySorted R l -> StronglySorted S l.
Proof.
  intros HRS Hs. induction Hs as [|x l Hl IH Hx]; constructor.
  - apply IH. intros a b Ha Hb. apply HRS; simpl; auto.
  - rewrite Forall_forall in *. intros y Hy. apply HRS; simpl; auto.
Qed.

Section Blocks.
Variable names : list string.
Variable dayCap : Z.

Lemma blocks_titles (lens : list Z) :
  forall cursor from,
  map title (blocks names cursor from lens)
  = roundRobin names cursor (List.length lens).
Proof.
  induction lens as [|n lens IH]; intros cursor from; simpl; [reflexivity|].
  now rewrite roundRobin_S, IH.
Qed.

Lemma blocks_items (lens : list Z) :
  forall cursor from,
  Forall (fun it => subjectId it = None /\ completed it = false
                    /\ isStudyItem it = true
                    /\ exists name, title it = ("Study " ++ name)%string)
         (blocks names cursor from lens).
Proof.
  induction lens as [|n lens IH]; intros cursor from; simpl; constructor; auto.
  simpl. repeat split. now exists (subjectAt names cursor).
Qed.

(** The sessions cut from a window follow one another inside it. *)
Lemma blocks_layout (windowEnd : Instant) (lens : list Z) :
  wholeMinute windowEnd ->
  forall cursor from scheduled,
  wholeMinute from ->
  fits windowEnd dayCap from scheduled lens ->
  StronglySorted itemBefore (blocks names cursor from lens)
  /\ Forall (fun it => from <= start it /\ start it < end_ it
                       /\ end_ it <= windowEnd)
            (blocks names cursor from lens).
Proof.
  intros Hwe. induction lens as [|n lens IH]; intros cursor from scheduled Hfrom Hfits;
    simpl.
  - split; constructor.
  - destruct Hfits as (Hn & Hslot & _ & Hrest).
    assert (Hend : from < addMinutes from n <= windowEnd).
    { destruct (Z.le_gt_cases from windowEnd) as [Hle|Hgt].
      - pose proof (minutesBetweenDates_exact _ _ Hfrom Hwe Hle).
        unfold addMinutes, MS_PER_MINUTE in *. lia.
      - rewrite minutesBetweenDates_backwards in Hslot by lia. lia. }
    destruct (IH (cursor + 1) (addMinutes from n) (scheduled + n)) as [Hs Hf]; auto.
    { now apply wholeMinute_addMinutes. }
    split.
    + constructor; auto.
      eapply Forall_impl; [|exact Hf]. intros it Hit.
      unfold itemBefore, precedes. simpl in *. lia.
    + constructor; [simpl; lia|].
      eapply Forall_impl; [|exact Hf]. simpl. intros it Hit. lia.
Qed.

Lemma packed_cap (windows : list Slot) (scheduled cursor : Z)
    (new : list PlanItem) :
  packed names dayCap windows scheduled cursor new ->
  scheduled <= dayCap ->
  0 <= sumMinutes new /\ scheduled + sumMinutes new <= dayCap.
Proof.
  induction 1 as [|w windows scheduled cursor lens later Hfits Hp IH]; intros Hle.
  - simpl. lia.
  - rewrite sumMinutes_app.
    rewrite (sumMinutes_blocks names dayCap _ cursor _ _ _ Hfits).
    pose proof (fits_cap dayCap _ _ _ _ Hfits Hle). lia.
Qed.

Lemma packed_titles (windows : list Slot) (scheduled cursor : Z)
    (new : list PlanItem) :
  packed names dayCap windows scheduled cursor new ->
  map title new = roundRobin names cursor (List.length new).
Proof.
  induction 1 as [|w windows scheduled cursor lens later Hfits Hp IH].
  - reflexivity.
  - rewrite map_app, length_app, roundRobin_app, blocks_titles, IH, length_blocks.
    reflexivity.
Qed.

Lemma packed_items (windows : list Slot) (scheduled cursor : Z)
    (new : list PlanItem) :
  packed names dayCap windows scheduled cursor new ->
  Forall (fun it => subjectId it = None /\ completed it = false
                    /\ isStudyItem it = true
                    /\ exists name, title it = ("Study " ++ name)%string) new.
Proof.
  induction 1 as [|w windows scheduled cursor lens later Hfits Hp IH].
  - constructor.
  - apply Forall_app. split; [apply blocks_items|exact IH].
Qed.

(** The sessions of a day come in order of time, each inside one of the
    day's windows. *)
Lemma packed_layout (windows : list Slot) (scheduled cursor : Z)
    (new : list PlanItem) :
  packed names dayCap windows scheduled cursor new ->
  StronglySorted slotBefore windows ->
  Forall (fun w => wholeMinute (slot_start w) /\ wholeMinute (slot_end w)) windows ->
  StronglySorted itemBefore new
  /\ Forall (fun it => start it < end_ it
                       /\ exists w, In w windows /\ slot_start w <= start it
                                    /\ end_ it <= slot_end w) new.
Proof.
  induction 1 as [|w windows scheduled cursor lens later Hfits Hp IH];
    intros Hsorted Hwhole.
  - split; constructor.
  - inversion Hsorted as [|? ? Hs' Hw]; subst.
    inversion Hwhole as [|? ? [Hw1 Hw2] Hwhole']; subst.
    destruct (IH Hs' Hwhole') as [IHs IHf].
    destruct (blocks_layout (slot_end w) lens Hw2 cursor _ _ Hw1 Hfits) as [Hbs Hbf].
    rewrite Forall_forall in Hbf, IHf, Hw.
    split.
    + apply StronglySorted_app; auto.
      intros a b Ha Hb. specialize (Hbf a Ha).
      destruct (IHf b Hb) as (_ & w' & Hw' & Hlo & _).
      specialize (Hw w' Hw'). unfold itemBefore, slotBefore, precedes in *. lia.
    + apply Forall_forall. intros it Hit. apply in_app_iff in Hit.
      destruct Hit as [Hit|Hit].
      * specialize (Hbf it Hit). split; [lia|].
        exists w. split; [now left|lia].
      * destruct (IHf it Hit) as (Hpos & w' & Hw' & Hlo & Hhi).
        split; [exact Hpos|]. exists w'. split; [now right|lia].
Qed.
End Blocks.

Lemma availableMinutesOf_nonneg (windows : list Slot) :
  0 <= availableMinutesOf windows.
Proof.
  unfold availableMinutesOf.
  assert (H : forall acc, 0 <= acc ->
            0 <= fold_left (fun sum slot =>
                   sum + minutesBetweenDates (slot_start slot) (slot_end slot))
                   windows acc).
  { induction windows as [|w windows IH]; intros acc Hacc; simpl; auto.
    apply IH. pose proof (minutesBetweenDates_nonneg (slot_start w) (slot_end w)). lia. }
  apply H. lia.
Qed.

Lemma packDay_total (names : list string) (maxStudy : Z) (windows : list Slot)
    (cursor : Z) :
  exists new,
    packDay names maxStudy windows cursor
    = Some (mkPack (sumMinutes new) new (cursor + Z.of_nat (List.length new)))
    /\ packed names (Z.min maxStudy (availableMinutesOf windows)) windows 0 cursor new.
Proof.
  unfold packDay.
  destruct (Z.eqb_spec (availableMinutesOf windows) 0) as [H0|Hne].
  { exists []. simpl. rewrite Z.add_0_r. split; [reflexivity|constructor]. }
  set (p := choosePreferredBlockMinutes _ _).
  destruct (Z.eqb_spec p 0) as [Hp0|Hpne].
  { exists []. simpl. rewrite Z.add_0_r. split; [reflexivity|constructor]. }
  assert (Hp : 0 < p).
  { subst p. destruct (choosePreferredBlockMinutes_cases
                         (availableMinutesOf windows) (Z.of_nat (List.length names)))
      as [H|[H|H]]; rewrite H in *; unfold MIN_BLOCK_MINUTES, MAX_BLOCK_MINUTES; lia. }
  destruct (packWindows_total names p (Z.min maxStudy (availableMinutesOf windows))
              Hp windows (mkPack 0 [] cursor)) as (new & Heq & Hpacked);
    [simpl; lia|].
  exists new. simpl in Heq, Hpacked. split; assumption.
Qed.

(** ** One day of the plan *)

Lemma daySlots_filter (anchor : Instant) (dayIndex : Z) (st et : TimeOfDay) :
  daySlots anchor dayIndex st et
  = filter slotFits (dayStretches anchor dayIndex st et).
Proof.
  unfold daySlots, dayStretches, buildStudyWindows.
  destruct (getDailyWindow anchor dayIndex st et); reflexivity.
Qed.

Lemma breakItems_sorted (anchor : Instant) (dayIndex : Z) (ws we : Instant) :
  sortBy start (map breakItem (buildBreaksForDay anchor dayIndex ws we))
  = map breakItem (buildBreaksForDay anchor dayIndex ws we).
Proof.
  apply sortBy_id, StronglySorted_map.
  unfold buildBreaksForDay. apply (sortBy_sorted brk_start).
Qed.

(** The sort of a day without sessions, which the engine skips, would change
    nothing. *)
Lemma planDay_unfold (baseDate : Instant) (req : PlanRequest) (cursor dayIndex : Z) :
  planDay baseDate req cursor dayIndex
  = match packDay (subjectNames req) (maxStudyMinutesPerDay req)
            (daySlots baseDate dayIndex (startTime req) (endTime req)) cursor with
    | None => None
    | Some st =>
        Some (sortBy start
                (sessions st
                 ++ map breakItem
                      (dayBreaks baseDate dayIndex (startTime req) (endTime req))),
              subjectCursor st)
    end.
Proof.
  unfold planDay, packDay, daySlots, dayBreaks.
  destruct (getDailyWindow baseDate dayIndex (startTime req) (endTime req))
    as [dayStart dayEnd].
  destruct (_ =? 0); [simpl; now rewrite breakItems_sorted|].
  destruct (_ =? 0); [simpl; now rewrite breakItems_sorted|].
  reflexivity.
Qed.

Lemma break_titles (anchor : Instant) (dayIndex : Z) (st et : TimeOfDay) (b : Break) :
  In b (dayBreaks anchor dayIndex st et) ->
  exists spec, In spec FIXED_BREAKS /\ brk_title b = fb_title spec.
Proof.
  unfold dayBreaks. destruct (getDailyWindow anchor dayIndex st et) as [ds de].
  intros Hb. apply In_buildBreaksForDay in Hb.
  destruct Hb as (spec & Hin & -> & _). exists spec. split; [exact Hin|reflexivity].
Qed.

Lemma merged_day_facts (baseDate : Instant) (req : PlanRequest)
    (cursor dayIndex : Z) (dayCap scheduled : Z) (new : list PlanItem) :
  let breaks := dayBreaks baseDate dayIndex (startTime req) (endTime req) in
  let windows := daySlots baseDate dayIndex (startTime req) (endTime req) in
  let merged := sortBy start (new ++ map breakItem breaks) in
  packed (subjectNames req) dayCap windows scheduled cursor new ->
  StronglySorted itemBefore merged
  /\ Forall (proper start end_) merged
  /\ filter isStudyItem merged = new.
Proof.
  intros breaks windows merged Hpacked. subst merged.
  pose proof (dayBreaks_facts baseDate dayIndex (startTime req) (endTime req)) as Hb.
  pose proof (dayStretches_facts baseDate dayIndex (startTime req) (endTime req)) as Hs.
  destruct (dayWindow baseDate dayIndex (startTime req) (endTime req))
    as [dayStart dayEnd].
  fold breaks in Hb, Hs.
  destruct Hb as (Hbf & Hbsorted & _).
  destruct Hs as (Hsf & Hssorted & Hsapart & _).
  rewrite Forall_forall in Hbf, Hsf.
  (* the windows the packer was given *)
  assert (Hwsorted : StronglySorted slotBefore windows).
  { unfold windows. rewrite daySlots_filter. now apply StronglySorted_filter. }
  assert (Hwin : forall w, In w windows ->
            In w (dayStretches baseDate dayIndex (startTime req) (endTime req))).
  { intros w Hw. unfold windows in Hw. rewrite daySlots_filter in Hw.
    apply filter_In in Hw. tauto. }
  assert (Hwwhole : Forall (fun w => wholeMinute (slot_start w)
                                     /\ wholeMinute (slot_end w)) windows).
  { apply Forall_forall. intros w Hw. specialize (Hsf w (Hwin w Hw)). tauto. }
  destruct (packed_layout _ _ _ _ _ _ Hpacked Hwsorted Hwwhole) as [Hnsorted Hnf].
  pose proof (packed_items _ _ _ _ _ _ Hpacked) as Hitems.
  rewrite Forall_forall in Hnf, Hitems.
  (* every item lasts, and no two of them overlap *)
  assert (Hproper : Forall (proper start end_) (new ++ map breakItem breaks)).
  { apply Forall_app. split; apply Forall_forall.
    - intros it Hit. apply Hnf in Hit. unfold proper. tauto.
    - intros it Hit. apply in_map_iff in Hit. destruct Hit as (b & <- & Hb).
      specialize (Hbf b Hb). unfold proper, MS_PER_HOUR in *. simpl. lia. }
  assert (Hapart : ForallOrdPairs (apart start end_) (new ++ map breakItem breaks)).
  { apply ForallOrdPairs_app.
    - apply StronglySorted_ForallOrdPairs in Hnsorted.
      eapply ForallOrdPairs_weaken; [|exact Hnsorted].
      intros a b Hab. left. exact Hab.
    - apply StronglySorted_ForallOrdPairs.
      apply StronglySorted_map.
      eapply StronglySorted_weaken; [|exact Hbsorted].
      intros a b _ _ Hab. left. exact Hab.
    - intros a b' Ha Hb'. apply in_map_iff in Hb'. destruct Hb' as (b & <- & Hb).
      destruct (Hnf a Ha) as (Hpos & w & Hw & Hlo & Hhi).
      destruct (Hsapart w b (Hwin w Hw) Hb);
        unfold apart, precedes; simpl; [left|right]; lia. }
  split; [|split].
  - now apply sortBy_precedes.
  - now apply Forall_sortBy.
  - rewrite filter_sortBy, filter_app.
    assert (Hfn : filter isStudyItem new = new).
    { apply forallb_filter_id. apply forallb_forall. intros it Hit.
      apply Hitems in Hit. tauto. }
    assert (Hfb : filter isStudyItem (map breakItem breaks) = []).
    { clear - breaks. subst breaks.
      assert (H : forall b, In b (dayBreaks baseDate dayIndex (startTime req)
                                    (endTime req)) ->
                           isStudyItem (breakItem b) = false).
      { intros b Hb. eapply isStudyItem_break, break_titles, Hb. }
      induction (dayBreaks baseDate dayIndex (startTime req) (endTime req))
        as [|b l IH]; simpl; auto.
      rewrite H by now left. apply IH. intros b' Hb'. apply H. now right. }
    rewrite Hfn, Hfb, app_nil_r.
    apply sortBy_id.
    eapply StronglySorted_weaken; [|exact Hnsorted].
    intros a b Ha _ Hab. apply Hnf in Ha.
    unfold keyLe, itemBefore, precedes in *. lia.
Qed.


Lemma planDay_facts (baseDate : Instant) (req : PlanRequest) (cursor dayIndex : Z) :
  let breaks := dayBreaks baseDate dayIndex (startTime req) (endTime req) in
  let windows := daySlots baseDate dayIndex (startTime req) (endTime req) in
  exists new,
    let merged := sortBy start (new ++ map breakItem breaks) in
    planDay baseDate req cursor dayIndex
    = Some (merged, cursor + Z.of_nat (List.length new))
    /\ packed (subjectNames req)
              (Z.min (maxStudyMinutesPerDay req) (availableMinutesOf windows))
              windows 0 cursor new
    /\ StronglySorted itemBefore merged
    /\ Forall (proper start end_) merged
    /\ filter isStudyItem merged = new.
Proof.
  intros breaks windows.
  destruct (packDay_total (subjectNames req) (maxStudyMinutesPerDay req) windows cursor)
    as (new & Heq & Hpacked).
  exists new. cbv zeta. rewrite planDay_unfold. fold breaks windows. rewrite Heq.
  cbn [sessions subjectCursor].
  split; [reflexivity|]. split; [exact Hpacked|].
  exact (merged_day_facts baseDate req cursor dayIndex _ _ new Hpacked).
Qed.

Lemma planDay_items (baseDate : Instant) (req : PlanRequest) (cursor dayIndex : Z)
    (items : list PlanItem) (cursor' : Z) :
  planDay baseDate req cursor dayIndex = Some (items, cursor') ->
  Forall engineItem items.
Proof.
  destruct (planDay_facts baseDate req cursor dayIndex)
    as (new & Heq & Hpacked & _).
  cbv zeta in Heq. rewrite Heq. intros H. inversion H; subst. clear H Heq.
  apply Forall_sortBy, Forall_app. split.
  - eapply Forall_impl; [|exact (packed_items _ _ _ _ _ _ Hpacked)].
    intros it (Hid & _ & _ & Hname). split; [exact Hid|]. left. exact Hname.
  - apply Forall_forall. intros it Hit. apply in_map_iff in Hit.
    destruct Hit as (b & <- & Hb). apply break_titles in Hb.
    destruct Hb as (spec & Hin & Ht). split; [reflexivity|]. right.
    exists spec. simpl. rewrite Ht. split; [exact Hin|]. split; [reflexivity|].
    simpl in Hin. destruct Hin as [<-|[<-|[<-|[]]]]; reflexivity.
Qed.

(** ** The whole plan *)

Lemma planDays_facts (baseDate : Instant) (req : PlanRequest) (remaining : nat) :
  forall dayIndex items cursor,
  exists new,
    planDays baseDate req remaining dayIndex items cursor = Some (items ++ new)
    /\ Forall engineItem new
    /\ sessionTitles new
       = roundRobin (subjectNames req) cursor (List.length (sessionTitles new)).
Proof.
  induction remaining as [|remaining IH]; intros dayIndex items cursor; simpl.
  - exists []. rewrite app_nil_r. repeat split; constructor.
  - destruct (planDay_facts baseDate req cursor dayIndex)
      as (sess & Heq & Hpacked & _ & _ & Hfilter).
    cbv zeta in Heq, Hfilter.
    pose proof (planDay_items _ _ _ _ _ _ Heq) as Hitems.
    rewrite Heq.
    set (merged := sortBy start _) in *.
    destruct (IH (dayIndex + 1) (items ++ merged)
                 (cursor + Z.of_nat (List.length sess)))
      as (later & Heq' & Hlater & Htitles).
    exists (merged ++ later). rewrite app_assoc. split; [exact Heq'|].
    split; [apply Forall_app; now split|].
    unfold sessionTitles in *.
    rewrite filter_app, map_app, length_app, roundRobin_app, Hfilter.
    rewrite (packed_titles _ _ _ _ _ _ Hpacked).
    rewrite !length_roundRobin. f_equal. exact Htitles.
Qed.

(** The plan is its days one after the other, each as [planDay] makes it. *)
Lemma planDays_days (baseDate : Instant) (req : PlanRequest) (remaining : nat) :
  forall dayIndex items cursor,
  exists days,
    planDays baseDate req remaining dayIndex items cursor = Some (items ++ List.concat days)
    /\ List.length days = remaining
    /\ forall k day, nth_error days k = Some day ->
         exists c c', planDay baseDate req c (dayIndex + Z.of_nat k) = Some (day, c').
Proof.
  induction remaining as [|remaining IH]; intros dayIndex items cursor; simpl.
  - exists []. simpl. rewrite app_nil_r. repeat split; auto.
    intros [|k] day H; discriminate.
  - destruct (planDay_facts baseDate req cursor dayIndex) as (sess & Heq & _).
    cbv zeta in Heq. rewrite Heq.
    set (merged := sortBy start _) in *.
    destruct (IH (dayIndex + 1) (items ++ merged)
                 (cursor + Z.of_nat (List.length sess)))
      as (days & Heq' & Hlen & Hdays).
    exists (merged :: days). simpl. rewrite app_assoc.
    split; [exact Heq'|]. split; [now rewrite Hlen|].
    intros [|k] day Hk; simpl in Hk.
    + inversion Hk; subst day. rewrite Z.add_0_r. eauto.
    + destruct (Hdays k day Hk) as (c & c' & Hc).
      exists c, c'. rewrite <- Hc. f_equal. lia.
Qed.

Lemma buildStructuredPlan_days (req : PlanRequest) :
  exists days,
    buildStructuredPlan req = Some (List.concat days)
    /\ List.length days = Z.to_nat (totalDays req)
    /\ forall k day, nth_error days k = Some day ->
         exists c c',
           planDay (setHours (anchorDate req) 0 0) req c (Z.of_nat k) = Some (day, c').
Proof.
  unfold buildStructuredPlan.
  destruct (planDays_days (setHours (anchorDate req) 0 0) req
              (Z.to_nat (totalDays req)) 0 [] 0) as (days & Heq & Hlen & Hdays).
  exists days. simpl in Heq. split; [exact Heq|]. split; [exact Hlen|].
  intros k day Hk. destruct (Hdays k day Hk) as (c & c' & Hc). eauto.
Qed.



(** ** The anchor date only moves the plan

    A plan anchored at another date is the same plan moved by whole days:
    nothing in the engine looks at the date itself. *)

Section Shift.
Variable t : Z.
Hypothesis whole_days : (MS_PER_DAY | t).

Lemma leb_shift (x y : Z) : (x + t <=? y + t) = (x <=? y).
Proof. destruct (Z.leb_spec x y), (Z.leb_spec (x + t) (y + t)); auto; lia. Qed.

Lemma ltb_shift (x y : Z) : (x + t <? y + t) = (x <? y).
Proof. destruct (Z.ltb_spec x y), (Z.ltb_spec (x + t) (y + t)); auto; lia. Qed.

Lemma minutesBetweenDates_shift (s e : Instant) :
  minutesBetweenDates (s + t) (e + t) = minutesBetweenDates s e.
Proof. unfold minutesBetweenDates. f_equal. f_equal. lia. Qed.

Lemma addDays_shift (d : Instant) (n : Z) : addDays (d + t) n = addDays d n + t.
Proof. unfold addDays. lia. Qed.

Lemma addMinutes_shift (d : Instant) (n : Z) :
  addMinutes (d + t) n = addMinutes d n + t.
Proof. unfold addMinutes. lia. Qed.

Lemma setHours_shift (d : Instant) (h m : Z) :
  setHours (d + t) h m = setHours d h m + t.
Proof.
  destruct whole_days as [k Hk]. unfold_dates. subst t. zdiv.
Qed.

Lemma getDailyWindow_shift (anchor : Instant) (dayIndex : Z) (st et : TimeOfDay) :
  getDailyWindow (anchor + t) dayIndex st et
  = (fst (getDailyWindow anchor dayIndex st et) + t,
     snd (getDailyWindow anchor dayIndex st et) + t).
Proof.
  unfold getDailyWindow. rewrite !addDays_shift, !setHours_shift, leb_shift.
  destruct (_ <=? _); simpl; now rewrite ?addDays_shift.
Qed.

Lemma placeBreak_shift (baseDay ws we : Instant) (spec : FixedBreak) :
  placeBreak (baseDay + t) (ws + t) (we + t) spec
  = map (shiftBreak t) (placeBreak baseDay ws we spec).
Proof.
  unfold placeBreak. rewrite !setHours_shift, leb_shift, ltb_shift.
  destruct (setHours baseDay (endHour spec) 0 <=? setHours baseDay (startHour spec) 0);
    destruct (setHours baseDay (startHour spec) 0 <? ws);
    rewrite ?addDays_shift, !leb_shift;
    destruct (_ && _); reflexivity.
Qed.

Lemma insertBy_map {A : Type} (key : A -> Z) (f : A -> A) (x : A) (l : list A) :
  (forall a, key (f a) = key a + t) ->
  insertBy key (f x) (map f l) = map f (insertBy key x l).
Proof.
  intros Hkey. induction l as [|y l IH]; simpl; auto.
  rewrite !Hkey, leb_shift. destruct (_ <=? _); simpl; now rewrite ?IH.
Qed.

Lemma sortBy_map {A : Type} (key : A -> Z) (f : A -> A) (l : list A) :
  (forall a, key (f a) = key a + t) ->
  sortBy key (map f l) = map f (sortBy key l).
Proof.
  intros Hkey. induction l as [|x l IH]; simpl; auto.
  now rewrite IH, insertBy_map.
Qed.

Lemma buildBreaksForDay_shift (anchor : Instant) (dayIndex : Z) (ws we : Instant) :
  buildBreaksForDay (anchor + t) dayIndex (ws + t) (we + t)
  = map (shiftBreak t) (buildBreaksForDay anchor dayIndex ws we).
Proof.
  unfold buildBreaksForDay. rewrite addDays_shift, setHours_shift.
  rewrite <- sortBy_map by reflexivity. f_equal.
  induction FIXED_BREAKS as [|spec l IH]; simpl; auto.
  now rewrite map_app, placeBreak_shift, IH.
Qed.

Lemma carveWindows_shift (dayEnd : Instant) (breaks : list Break) :
  forall cursor,
  carveWindows (dayEnd + t) (cursor + t) (map (shiftBreak t) breaks)
  = map (shiftSlot t) (carveWindows dayEnd cursor breaks).
Proof.
  induction breaks as [|b breaks IH]; intros cursor; simpl.
  - rewrite ltb_shift. destruct (_ <? _); reflexivity.
  - rewrite !ltb_shift, map_app.
    destruct (cursor <? brk_end b); rewrite IH;
      destruct (cursor <? brk_start b); reflexivity.
Qed.

Lemma buildStudyWindows_shift (dayStart dayEnd : Instant) (breaks : list Break) :
  buildStudyWindows (dayStart + t) (dayEnd + t) (map (shiftBreak t) breaks)
  = map (shiftSlot t) (buildStudyWindows dayStart dayEnd breaks).
Proof.
  unfold buildStudyWindows.
  rewrite sortBy_map by reflexivity. rewrite carveWindows_shift.
  induction (carveWindows dayEnd dayStart (sortBy brk_start breaks)) as [|s l IH];
    simpl; auto.
  unfold slotFits at 1. simpl. rewrite minutesBetweenDates_shift.
  fold (slotFits s). destruct (slotFits s); simpl; now rewrite IH.
Qed.

Lemma availableMinutesOf_shift (windows : list Slot) :
  availableMinutesOf (map (shiftSlot t) windows) = availableMinutesOf windows.
Proof.
  unfold availableMinutesOf. generalize 0.
  induction windows as [|w windows IH]; intros acc; simpl; auto.
  now rewrite minutesBetweenDates_shift, IH.
Qed.

Lemma packSlot_shift (names : list string) (preferred dayCap : Z)
    (windowEnd : Instant) (fuel : nat) :
  forall from st,
  packSlot fuel names preferred dayCap (windowEnd + t) (from + t) (shiftState t st)
  = option_map (shiftState t)
      (packSlot fuel names preferred dayCap windowEnd from st).
Proof.
  induction fuel as [|fuel IH]; intros from st; simpl; auto.
  destruct (_ <? dayCap); [|reflexivity].
  rewrite minutesBetweenDates_shift.
  destruct (_ =? 0); [reflexivity|].
  rewrite <- IH. f_equal.
  - apply addMinutes_shift.
  - unfold shiftState. simpl. rewrite map_app. simpl.
    unfold shiftItem at 2. simpl. now rewrite addMinutes_shift.
Qed.

Lemma packWindows_shift (names : list string) (preferred dayCap : Z) (fuel : nat)
    (windows : list Slot) :
  forall st,
  packWindows fuel names preferred dayCap (map (shiftSlot t) windows)
              (shiftState t st)
  = option_map (shiftState t)
      (packWindows fuel names preferred dayCap windows st).
Proof.
  induction windows as [|w windows IH]; intros st; cbn [packWindows map]; auto.
  cbn [shiftSlot slot_start slot_end]. rewrite packSlot_shift.
  destruct (packSlot fuel names preferred dayCap (slot_end w) (slot_start w) st)
    as [st'|]; simpl; auto.
  destruct (dayCap <=? minutesScheduled st'); auto.
Qed.

Lemma planDay_shift (baseDate : Instant) (req : PlanRequest) (cursor dayIndex : Z) :
  planDay (baseDate + t) req cursor dayIndex
  = option_map (shiftDay t) (planDay baseDate req cursor dayIndex).
Proof.
  unfold planDay. rewrite getDailyWindow_shift.
  destruct (getDailyWindow baseDate dayIndex (startTime req) (endTime req))
    as [dayStart dayEnd]. cbn [fst snd].
  rewrite buildBreaksForDay_shift, buildStudyWindows_shift, availableMinutesOf_shift.
  assert (Hbreaks : forall breaks,
            map breakItem (map (shiftBreak t) breaks)
            = map (shiftItem t) (map breakItem breaks))
    by (intros breaks; now rewrite !map_map).
  destruct (_ =? 0); [unfold shiftDay; simpl; now rewrite Hbreaks|].
  destruct (_ =? 0); [unfold shiftDay; simpl; now rewrite Hbreaks|].
  rewrite (packWindows_shift _ _ _ _ _ (mkPack 0 [] cursor)).
  destruct (packWindows _ _ _ _ _ _) as [st|]; simpl; auto.
  unfold shiftDay. simpl. f_equal. f_equal.
  rewrite <- sortBy_map by reflexivity.
  now rewrite map_app, Hbreaks.
Qed.

Lemma planDays_shift (baseDate : Instant) (req : PlanRequest) (remaining : nat) :
  forall dayIndex items cursor,
  planDays (baseDate + t) req remaining dayIndex (map (shiftItem t) items) cursor
  = option_map (map (shiftItem t))
      (planDays baseDate req remaining dayIndex items cursor).
Proof.
  induction remaining as [|remaining IH]; intros dayIndex items cursor; simpl; auto.
  rewrite planDay_shift.
  destruct (planDay baseDate req cursor dayIndex) as [[combined cursor']|];
    simpl; auto.
  now rewrite <- map_app, IH.
Qed.
End Shift.

Lemma buildStructuredPlan_anchor (req : PlanRequest) :
  buildStructuredPlan req
  = option_map (map (shiftItem (startOfDay (anchorDate req))))
      (planDays 0 req (Z.to_nat (totalDays req)) 0 [] 0).
Proof.
  unfold buildStructuredPlan.
  replace (setHours (anchorDate req) 0 0) with (0 + startOfDay (anchorDate req))
    by (unfold setHours; lia).
  apply (planDays_shift _) with (items := []).
  exists (anchorDate req / MS_PER_DAY). reflexivity.
Qed.

(** * The properties of the design document *)

(** ** Block sizes *)

(** C3: the preferred block is 0 when fewer than 60 minutes are free or there
    is no subject, so [preferredBlock(0, n)] is 0 for every [n];
    [preferredBlock(400, 2)] is 120 and [preferredBlock(90, 2)] is 60;
    [pickBlockLength(120, 90, 200)] is 60 and [pickBlockLength(120, 50, 200)]
    is 0. *)
Theorem block_sizer_values :
  (forall availableMinutes subjectCount,
     availableMinutes < 60 \/ subjectCount <= 0 ->
     choosePreferredBlockMinutes availableMinutes subjectCount = 0)
  /\ (forall n, choosePreferredBlockMinutes 0 n = 0)
  /\ choosePreferredBlockMinutes 400 2 = 120
  /\ choosePreferredBlockMinutes 90 2 = 60
  /\ pickBlockLength 120 90 200 = 60
  /\ pickBlockLength 120 50 200 = 0.
Proof.
  assert (H : forall a n, a < 60 \/ n <= 0 -> choosePreferredBlockMinutes a n = 0).
  { intros a n Hor. unfold choosePreferredBlockMinutes, MIN_BLOCK_MINUTES.
    destruct (Z.ltb_spec a 60); [reflexivity|].
    destruct (Z.leb_spec n 0); [reflexivity|]. lia. }
  split; [exact H|].
  split; [intros n; apply H; lia|].
  repeat split; reflexivity.
Qed.

(** ** The day window *)

(** C9: for valid times of day the window builder yields a window that ends
    strictly after it starts; when the end time is not after the start time
    on the same day, the end is put off by exactly one day and falls on the
    next calendar day (as for 22:00 to 06:00); otherwise it stays on the
    day. *)
Theorem daily_window_wraps_midnight (anchor : Instant) (dayIndex : Z)
    (st et : TimeOfDay) :
  validTime st -> validTime et ->
  let dayStart := fst (getDailyWindow anchor dayIndex st et) in
  let dayEnd := snd (getDailyWindow anchor dayIndex st et) in
  let sameDayEnd := clock anchor dayIndex (hours et) (minutes et) in
  dayStart = clock anchor dayIndex (hours st) (minutes st)
  /\ dayStart < dayEnd
  /\ (sameDayEnd <= dayStart ->
      dayEnd = addDays sameDayEnd 1
      /\ startOfDay dayEnd = addDays (startOfDay dayStart) 1)
  /\ (dayStart < sameDayEnd ->
      dayEnd = sameDayEnd /\ startOfDay dayEnd = startOfDay dayStart).
Proof.
  intros (Hh1 & Hm1) (Hh2 & Hm2). unfold getDailyWindow. cbn [fst snd]. cbv zeta.
  fold (clock anchor dayIndex (hours st) (minutes st)).
  fold (clock anchor dayIndex (hours et) (minutes et)).
  assert (Hs : startOfDay (clock anchor dayIndex (hours st) (minutes st))
               = startOfDay (addDays anchor dayIndex))
    by now apply startOfDay_setHours.
  assert (He : startOfDay (clock anchor dayIndex (hours et) (minutes et))
               = startOfDay (addDays anchor dayIndex))
    by now apply startOfDay_setHours.
  split; [reflexivity|].
  destruct (Z.leb_spec (clock anchor dayIndex (hours et) (minutes et))
              (clock anchor dayIndex (hours st) (minutes st))) as [Hle|Hgt].
  - split; [unfold_dates; lia|]. split; [|lia].
    intros _. split; [reflexivity|].
    now rewrite startOfDay_addDays, He, Hs.
  - split; [exact Hgt|]. split; [lia|].
    intros _. split; [reflexivity|]. now rewrite He, Hs.
Qed.

Lemma daily_window_22_to_06 :
  validTime (mkTime 22 0) /\ validTime (mkTime 6 0)
  /\ startOfDay (snd (getDailyWindow 0 0 (mkTime 22 0) (mkTime 6 0)))
     = addDays (startOfDay (fst (getDailyWindow 0 0 (mkTime 22 0) (mkTime 6 0)))) 1.
Proof.
  assert (H22 : validTime (mkTime 22 0)) by (unfold validTime; simpl; lia).
  assert (H06 : validTime (mkTime 6 0)) by (unfold validTime; simpl; lia).
  split; [exact H22|]. split; [exact H06|].
  apply (daily_window_wraps_midnight 0 0 (mkTime 22 0) (mkTime 6 0) H22 H06).
  vm_compute. discriminate.
Defined.

(** ** The break placer *)

(** C8: every break placed for a day lies inside the window it was given, so
    a break that starts where the window ends is left out; the breaks placed
    are those of the fixed table, each moved one day on when its start comes
    before the window's start, that then lie inside the window; and they
    come sorted by start. *)
Theorem breaks_inside_window (anchor : Instant) (dayIndex : Z)
    (windowStart windowEnd : Instant) :
  let breaks := buildBreaksForDay anchor dayIndex windowStart windowEnd in
  Forall (fun b => windowStart <= brk_start b /\ brk_end b <= windowEnd
                   /\ brk_start b <> windowEnd) breaks
  /\ (forall b, In b breaks <->
        exists spec, In spec FIXED_BREAKS
          /\ b = shiftedCandidate anchor dayIndex windowStart spec
          /\ windowStart <= brk_start b /\ brk_end b <= windowEnd)
  /\ StronglySorted (keyLe brk_start) breaks.
Proof.
  cbv zeta. split; [|split].
  - apply Forall_forall. intros b Hb. apply breaks_proper in Hb.
    unfold MS_PER_HOUR in Hb. lia.
  - intros b. apply In_buildBreaksForDay.
  - unfold buildBreaksForDay. apply sortBy_sorted.
Qed.

(** ** Free slots *)

(** C2, as the code has it: the free slots and the breaks of a day lie
    inside the day's window and no instant is in both; an instant of the
    window that is in neither lies in a stretch between breaks that is
    shorter than 60 minutes, which the calculator discards. *)
Theorem slots_and_breaks_within_window (anchor : Instant) (dayIndex : Z)
    (st et : TimeOfDay) :
  let dayStart := fst (dayWindow anchor dayIndex st et) in
  let dayEnd := snd (dayWindow anchor dayIndex st et) in
  let breaks := dayBreaks anchor dayIndex st et in
  let slots := daySlots anchor dayIndex st et in
  let stretches := dayStretches anchor dayIndex st et in
  (forall t, inSomeBreak breaks t \/ inSomeSlot slots t -> within dayStart dayEnd t)
  /\ (forall t, ~ (inSomeBreak breaks t /\ inSomeSlot slots t))
  /\ (forall t, within dayStart dayEnd t ->
        inSomeBreak breaks t \/ inSomeSlot slots t
        \/ exists r, In r stretches /\ inSlot t r
             /\ minutesBetweenDates (slot_start r) (slot_end r) < MIN_BLOCK_MINUTES
             /\ ~ inSomeBreak breaks t).
Proof.
  pose proof (dayBreaks_facts anchor dayIndex st et) as Hb.
  pose proof (dayStretches_facts anchor dayIndex st et) as Hs.
  destruct (dayWindow anchor dayIndex st et) as [dayStart dayEnd]. cbn [fst snd].
  cbv zeta in *.
  destruct Hb as (Hbf & _ & _). destruct Hs as (Hsf & _ & Hapart & Hcover).
  rewrite Forall_forall in Hbf, Hsf.
  assert (Hno : forall t r, In r (dayStretches anchor dayIndex st et) -> inSlot t r ->
                  ~ inSomeBreak (dayBreaks anchor dayIndex st et) t).
  { intros t r Hr Ht (b & Hb & Htb).
    specialize (Hapart r b Hr Hb). unfold inSlot, inBreak, within in *. lia. }
  split; [|split].
  - intros t [(b & Hb & Ht)|(s & Hs & Ht)].
    + specialize (Hbf b Hb). unfold inBreak, within in *. lia.
    + apply In_daySlots in Hs. destruct Hs as [Hs _].
      specialize (Hsf s Hs). unfold inSlot, within in *. lia.
  - intros t (Hbrk & s & Hs & Ht).
    apply In_daySlots in Hs. destruct Hs as [Hs _].
    exact (Hno t s Hs Ht Hbrk).
  - intros t Ht. destruct (Hcover t Ht) as [Hbrk|(r & Hr & Htr)]; [now left|].
    right.
    destruct (Z.lt_ge_cases (minutesBetweenDates (slot_start r) (slot_end r))
                MIN_BLOCK_MINUTES) as [Hshort|Hlong].
    + right. exists r. split; [exact Hr|]. split; [exact Htr|].
      split; [exact Hshort|]. exact (Hno t r Hr Htr).
    + left. exists r. split; [|exact Htr]. apply In_daySlots. split; assumption.
Qed.

(** C2, as the design document words it, fails on a day from 12:30 to 17:00:
    lunch runs from 13:00 to 14:00, the only free slot is 14:00 to 17:00,
    and the half hour from 12:30 is in the window but in neither. *)
Lemma window_not_covered_by_slots_and_breaks :
  validTime (mkTime 12 30) /\ validTime (mkTime 17 0)
  /\ dayWindow 0 0 (mkTime 12 30) (mkTime 17 0) = (45000000, 61200000)
  /\ ~ complementOfBreaks 0 0 (mkTime 12 30) (mkTime 17 0).
Proof.
  split; [unfold validTime; simpl; lia|].
  split; [unfold validTime; simpl; lia|].
  split; [reflexivity|].
  unfold complementOfBreaks.
  change (dayWindow 0 0 (mkTime 12 30) (mkTime 17 0)) with (45000000, 61200000).
  replace (dayBreaks 0 0 (mkTime 12 30) (mkTime 17 0))
    with [mkBreak "Lunch Break" 46800000 50400000] by (vm_compute; reflexivity).
  replace (daySlots 0 0 (mkTime 12 30) (mkTime 17 0))
    with [mkSlot 50400000 61200000] by (vm_compute; reflexivity).
  intros [Hcover _].
  destruct (proj1 (Hcover 45000000)) as [(b & Hb & Ht)|(s & Hs & Ht)].
  - unfold within. lia.
  - destruct Hb as [<-|[]]. unfold inBreak, within in Ht. simpl in Ht. lia.
  - destruct Hs as [<-|[]]. unfold inSlot, within in Ht. simpl in Ht. lia.
Qed.

(** ** The time parser *)

(** What makes [parseTimeString] throw: a value that is not a string, a
    component [Number] turns into [NaN], or a number out of range. *)
Lemma parseTimeString_throws (value : JS.Value) :
  (exists message, parseTimeString value = JS.Throw message) <->
  match value with
  | JS.VString s =>
      let hours := JS.Number (nth_error (JS.split ":" s) 0) in
      let minutes := JS.Number (nth_error (JS.split ":" s) 1) in
      hours = JS.NaN \/ minutes = JS.NaN
      \/ JS.ltb hours (JS.ofZ 0) = true \/ JS.ltb (JS.ofZ 23) hours = true
      \/ JS.ltb minutes (JS.ofZ 0) = true \/ JS.ltb (JS.ofZ 59) minutes = true
  | _ => True
  end.
Proof.
  destruct value;
    try (split; [intros _; exact I|intros _; eexists; reflexivity]).
  unfold parseTimeString. cbv zeta.
  set (hours := JS.Number (nth_error (JS.split ":" s) 0)).
  set (minutes := JS.Number (nth_error (JS.split ":" s) 1)).
  assert (Hh : JS.isNaN hours = true <-> hours = JS.NaN)
    by (destruct hours; simpl; split; congruence).
  assert (Hm : JS.isNaN minutes = true <-> minutes = JS.NaN)
    by (destruct minutes; simpl; split; congruence).
  rewrite <- Hh, <- Hm, <- !orb_true_iff, !orb_assoc.
  destruct (_ || _); split; intros H; try (eexists; reflexivity);
    try discriminate; destruct H; discriminate.
Qed.

Example parseTimeString_examples :
  parseTimeString (JS.VString "09:30") = JS.Return (mkParsed (JS.ofZ 9) (JS.ofZ 30))
  /\ parseTimeString (JS.VString "24:00") = JS.Throw "Invalid time format: 24:00"
  /\ parseTimeString (JS.VString "12:60") = JS.Throw "Invalid time format: 12:60"
  /\ parseTimeString (JS.VString "1230") = JS.Throw "Invalid time format: 1230"
  /\ parseTimeString (JS.VString "ab:cd") = JS.Throw "Invalid time format: ab:cd"
  /\ parseTimeString (JS.VNumber (JS.ofZ 930)) = JS.Throw "Time must be in HH:MM format"
  /\ parseTimeString JS.VUndefined = JS.Throw "Time must be in HH:MM format".
Proof. repeat split; reflexivity. Qed.

(** [Number] reads an empty or blank component as zero. *)
Lemma Number_blank : JS.Number (Some ""%string) = JS.ofZ 0
                     /\ JS.Number (Some "  "%string) = JS.ofZ 0.
Proof. split; reflexivity. Qed.

(** C4, at the point where the parser departs from it: the minute of
    ["12:"] is the empty string, which is no number, yet the parser returns
    12:00; it returns 00:00 for [":"]. *)
Theorem parse_accepts_empty_component :
  JS.split ":" "12:" = [ "12"; "" ]%string
  /\ parseTimeString (JS.VString "12:") = JS.Return (mkParsed (JS.ofZ 12) (JS.ofZ 0))
  /\ JS.split ":" ":" = [ ""; "" ]%string
  /\ parseTimeString (JS.VString ":") = JS.Return (mkParsed (JS.ofZ 0) (JS.ofZ 0)).
Proof. repeat split; reflexivity. Qed.

(** ** A worked day *)

Lemma clock_today (anchor : Instant) (h m : Z) :
  clock anchor 0 h m = (h * 60 + m) * MS_PER_MINUTE + startOfDay anchor.
Proof. unfold_dates. zdiv. Qed.

(** C1: for Math and Physics, a window from 09:00 to 17:00, one day and a cap
    of 420 minutes the plan is Math 09:00 to 11:00, Physics 11:00 to 13:00,
    lunch 13:00 to 14:00, Math 14:00 to 16:00 and Physics 16:00 to 17:00, in
    this order and nothing else: no snack or dinner break. *)
Theorem plan_math_physics_one_day (anchor : Instant) :
  let at_ := clock anchor 0 in
  buildStructuredPlan
    (mkRequest anchor ["Math"; "Physics"]%string 1 (mkTime 9 0) (mkTime 17 0) 420)
  = Some [ mkItem None "Study Math" (at_ 9 0) (at_ 11 0) false;
           mkItem None "Study Physics" (at_ 11 0) (at_ 13 0) false;
           mkItem None "Lunch Break" (at_ 13 0) (at_ 14 0) false;
           mkItem None "Study Math" (at_ 14 0) (at_ 16 0) false;
           mkItem None "Study Physics" (at_ 16 0) (at_ 17 0) false ].
Proof.
  cbv zeta. rewrite buildStructuredPlan_anchor. cbn [anchorDate totalDays].
  replace (planDays 0 _ (Z.to_nat 1) 0 [] 0)
    with (Some [ mkItem None "Study Math" 32400000 39600000 false;
                 mkItem None "Study Physics" 39600000 46800000 false;
                 mkItem None "Lunch Break" 46800000 50400000 false;
                 mkItem None "Study Math" 50400000 57600000 false;
                 mkItem None "Study Physics" 57600000 61200000 false ])
    by (vm_compute; reflexivity).
  rewrite !clock_today. reflexivity.
Qed.

(** ** Round robin *)


(** Room for five blocks in one day, 08:00 to 18:00 with a cap of eight
    hours: two hours for A and for B, the hour left before lunch for C, then
    two hours for A and one for B before the snack break. *)
Example round_robin_five_blocks :
  option_map sessionTitles
    (buildStructuredPlan
       (mkRequest 0 ["A"; "B"; "C"]%string 1 (mkTime 8 0) (mkTime 18 0) 480))
  = Some [ "Study A"; "Study B"; "Study C"; "Study A"; "Study B" ]%string.
Proof. vm_compute. reflexivity. Qed.

(** Five sessions over two days of 09:00 to 13:00 with a cap of four hours a
    day: the fifth session, the first of the second day, goes to B. *)
Example round_robin_over_two_days :
  option_map sessionTitles
    (buildStructuredPlan
       (mkRequest 0 ["A"; "B"; "C"]%string 2 (mkTime 9 0) (mkTime 13 0) 240))
  = Some [ "Study A"; "Study B"; "Study C"; "Study A";
           "Study B"; "Study C"; "Study A"; "Study B" ]%string
  /\ option_map (map start)
       (buildStructuredPlan
          (mkRequest 0 ["A"; "B"; "C"]%string 2 (mkTime 9 0) (mkTime 13 0) 240))
     = Some [ 32400000; 36000000; 39600000; 43200000;
              118800000; 122400000; 126000000; 129600000 ].
Proof. split; vm_compute; reflexivity. Qed.

(** ** The day cap *)

(** C6: the study sessions of a day last, together, at most the smaller of
    the cap on study minutes and the day's free minutes; and once the minutes
    scheduled reach that bound the packer leaves the windows that remain
    untouched. *)
Theorem day_sessions_within_cap (baseDate : Instant) (req : PlanRequest)
    (cursor dayIndex : Z) :
  0 <= maxStudyMinutesPerDay req ->
  let windows := daySlots baseDate dayIndex (startTime req) (endTime req) in
  let dayCap := Z.min (maxStudyMinutesPerDay req) (availableMinutesOf windows) in
  (exists items cursor',
     planDay baseDate req cursor dayIndex = Some (items, cursor')
     /\ sumMinutes (filter isStudyItem items) <= dayCap)
  /\ (forall preferred windows1 windows2 st st1,
        packWindows (packFuel dayCap) (subjectNames req) preferred dayCap
                    windows1 st = Some st1 ->
        dayCap <= minutesScheduled st1 ->
        packWindows (packFuel dayCap) (subjectNames req) preferred dayCap
                    (windows1 ++ windows2) st = Some st1).
Proof.
  intros Hmax windows dayCap. split.
  - destruct (planDay_facts baseDate req cursor dayIndex)
      as (new & Heq & Hpacked & _ & _ & Hfilter).
    cbv zeta in Heq, Hfilter. fold windows dayCap in Hpacked.
    eexists _, _. split; [exact Heq|]. rewrite Hfilter.
    assert (Hcap : 0 <= dayCap).
    { pose proof (availableMinutesOf_nonneg windows). unfold dayCap. lia. }
    pose proof (packed_cap _ _ _ _ _ _ Hpacked Hcap). lia.
  - intros preferred windows1 windows2 st st1 Heq Hfull.
    destruct windows1 as [|w windows1].
    + simpl in Heq. inversion Heq; subst st1. simpl.
      destruct windows2 as [|w2 windows2]; [reflexivity|].
      apply packWindows_full; [exact Hfull|discriminate].
    + apply packWindows_app; [exact Heq|exact Hfull|discriminate].
Qed.

Lemma day_sessions_within_cap_witness :
  let req := mkRequest 0 ["Math"; "Physics"]%string 1 (mkTime 9 0) (mkTime 17 0) 300 in
  0 <= maxStudyMinutesPerDay req
  /\ exists items cursor',
       planDay 0 req 0 0 = Some (items, cursor')
       /\ sumMinutes (filter isStudyItem items)
          <= Z.min (maxStudyMinutesPerDay req)
               (availableMinutesOf (daySlots 0 0 (startTime req) (endTime req))).
Proof.
  cbv zeta.
  assert (H : 0 <= maxStudyMinutesPerDay
                (mkRequest 0 ["Math"; "Physics"]%string 1 (mkTime 9 0) (mkTime 17 0) 300))
    by (simpl; lia).
  split; [exact H|].
  exact (proj1 (day_sessions_within_cap 0 _ 0 0 H)).
Defined.

(** ** Order within a day *)

(** C7: the items of a day, sessions and breaks merged, come strictly in
    order of their start, and each is over by the time the next, and so any
    later one, begins. *)
Theorem day_items_ordered_disjoint (baseDate : Instant) (req : PlanRequest)
    (cursor dayIndex : Z) :
  exists items cursor',
    planDay baseDate req cursor dayIndex = Some (items, cursor')
    /\ StronglySorted (fun a b => start a < start b /\ end_ a <= start b) items
    /\ Forall (fun it => start it < end_ it) items.
Proof.
  destruct (planDay_facts baseDate req cursor dayIndex)
    as (new & Heq & _ & Hsorted & Hproper & _).
  cbv zeta in *. eexists _, _. split; [exact Heq|]. split; [|exact Hproper].
  rewrite Forall_forall in Hproper.
  eapply StronglySorted_weaken; [|exact Hsorted].
  intros a b Ha _ Hab. apply Hproper in Ha.
  unfold itemBefore, precedes, proper in *. lia.
Qed.

(** ** Subject references *)

(** C10: no item of a plan carries a subject reference, a study session no
    more than a break; an item is one or the other by its title, which
    begins with Study for a session and is that of a fixed break
    otherwise. *)
Theorem items_carry_no_subject (req : PlanRequest) :
  exists items,
    buildStructuredPlan req = Some items
    /\ Forall (fun it => subjectId it = None) items
    /\ Forall (fun it => sessionTitle it \/ breakTitle it) items
    /\ Forall (fun it => isStudyItem it = true <-> sessionTitle it) items.
Proof.
  unfold buildStructuredPlan.
  destruct (planDays_facts (setHours (anchorDate req) 0 0) req
              (Z.to_nat (totalDays req)) 0 [] 0) as (items & Heq & Hitems & _).
  exists items. split; [exact Heq|].
  repeat split; (eapply Forall_impl; [|exact Hitems]); intros it (Hid & Hkind); auto.
  unfold isStudyItem. split.
  - intros Hstudy. destruct Hkind as [Hs|(spec & Hin & Ht & _)]; [exact Hs|].
    rewrite Ht in Hstudy. simpl in Hin.
    destruct Hin as [<-|[<-|[<-|[]]]]; discriminate.
  - intros (name & ->). reflexivity.
Qed.

(** * Further properties of the engine *)

(** ** How long items last *)

Lemma pickBlockLength_values (preferred slotRemaining capRemaining : Z) :
  pickBlockLength preferred slotRemaining capRemaining = 0
  \/ pickBlockLength preferred slotRemaining capRemaining = preferred
  \/ pickBlockLength preferred slotRemaining capRemaining = MIN_BLOCK_MINUTES.
Proof.
  unfold pickBlockLength. destruct (_ && _); auto. destruct (_ && _); auto.
Qed.

Lemma packSlot_lasts (names : list string) (preferred dayCap : Z)
    (windowEnd : Instant) (fuel : nat) :
  forall from st st',
  packSlot fuel names preferred dayCap windowEnd from st = Some st' ->
  Forall (fun it => lasts preferred it \/ lasts MIN_BLOCK_MINUTES it) (sessions st) ->
  Forall (fun it => lasts preferred it \/ lasts MIN_BLOCK_MINUTES it) (sessions st').
Proof.
  induction fuel as [|fuel IH]; intros from st st'; simpl; [discriminate|].
  destruct (_ <? dayCap); [|intros H; inversion H; subst; auto].
  destruct (Z.eqb_spec (pickBlockLength preferred (minutesBetweenDates from windowEnd)
                          (dayCap - minutesScheduled st)) 0) as [_|Hne];
    [intros H; inversion H; subst; auto|].
  intros Heq Hst. eapply IH; [exact Heq|]. simpl.
  apply Forall_app. split; [exact Hst|]. constructor; [|constructor].
  unfold lasts. simpl.
  destruct (pickBlockLength_values preferred (minutesBetweenDates from windowEnd)
              (dayCap - minutesScheduled st)) as [H|[H|H]];
    rewrite H in *; [congruence|now left|now right].
Qed.

Lemma packWindows_lasts (names : list string) (preferred dayCap : Z) (fuel : nat)
    (windows : list Slot) :
  forall st st',
  packWindows fuel names preferred dayCap windows st = Some st' ->
  Forall (fun it => lasts preferred it \/ lasts MIN_BLOCK_MINUTES it) (sessions st) ->
  Forall (fun it => lasts preferred it \/ lasts MIN_BLOCK_MINUTES it) (sessions st').
Proof.
  induction windows as [|w windows IH]; intros st st'; cbn [packWindows].
  - intros H; inversion H; subst; auto.
  - destruct (packSlot fuel names preferred dayCap (slot_end w) (slot_start w) st)
      as [st1|] eqn:Hslot; [|discriminate].
    intros Heq Hst. pose proof (packSlot_lasts _ _ _ _ _ _ _ _ Hslot Hst) as H1.
    destruct (dayCap <=? minutesScheduled st1).
    + inversion Heq; subst; auto.
    + eapply IH; eauto.
Qed.

Lemma packDay_lasts (names : list string) (maxStudy : Z) (windows : list Slot)
    (cursor : Z) (st : PackState) :
  packDay names maxStudy windows cursor = Some st ->
  Forall (fun it => lasts 60 it \/ lasts 120 it) (sessions st).
Proof.
  unfold packDay.
  destruct (_ =? 0); [intros H; inversion H; constructor|].
  destruct (Z.eqb_spec (choosePreferredBlockMinutes (availableMinutesOf windows)
                          (Z.of_nat (List.length names))) 0) as [_|Hne];
    [intros H; inversion H; constructor|].
  intros Heq. apply packWindows_lasts in Heq; [|constructor].
  eapply Forall_impl; [|exact Heq]. intros it.
  destruct (choosePreferredBlockMinutes_cases (availableMinutesOf windows)
              (Z.of_nat (List.length names))) as [H|[H|H]]; rewrite H in *;
    unfold MIN_BLOCK_MINUTES, MAX_BLOCK_MINUTES; tauto.
Qed.

(** The sessions and breaks a day is made of, before they are merged. *)
Lemma planDay_parts (baseDate : Instant) (req : PlanRequest) (cursor dayIndex : Z) :
  let breaks := dayBreaks baseDate dayIndex (startTime req) (endTime req) in
  let windows := daySlots baseDate dayIndex (startTime req) (endTime req) in
  exists new,
    planDay baseDate req cursor dayIndex
    = Some (sortBy start (new ++ map breakItem breaks),
            cursor + Z.of_nat (List.length new))
    /\ packDay (subjectNames req) (maxStudyMinutesPerDay req) windows cursor
       = Some (mkPack (sumMinutes new) new (cursor + Z.of_nat (List.length new)))
    /\ packed (subjectNames req)
              (Z.min (maxStudyMinutesPerDay req) (availableMinutesOf windows))
              windows 0 cursor new
    /\ filter isStudyItem (sortBy start (new ++ map breakItem breaks)) = new.
Proof.
  intros breaks windows.
  destruct (packDay_total (subjectNames req) (maxStudyMinutesPerDay req) windows cursor)
    as (new & Heq & Hpacked).
  exists new. rewrite planDay_unfold. fold breaks windows. rewrite Heq.
  cbn [sessions subjectCursor].
  split; [reflexivity|]. split; [reflexivity|]. split; [exact Hpacked|].
  exact (proj2 (proj2 (merged_day_facts baseDate req cursor dayIndex _ _ new Hpacked))).
Qed.

Lemma planDay_lasts (baseDate : Instant) (req : PlanRequest) (cursor dayIndex : Z)
    (items : list PlanItem) (cursor' : Z) :
  planDay baseDate req cursor dayIndex = Some (items, cursor') ->
  Forall (fun it => if isStudyItem it then lasts 60 it \/ lasts 120 it
                    else lasts 60 it) items.
Proof.
  destruct (planDay_parts baseDate req cursor dayIndex)
    as (new & Heq & Hday & Hpacked & _).
  cbv zeta in Heq. rewrite Heq. intros H. inversion H; subst. clear H Heq.
  apply Forall_sortBy, Forall_app. split.
  - pose proof (packDay_lasts _ _ _ _ _ Hday) as Hl.
    pose proof (packed_items _ _ _ _ _ _ Hpacked) as Hi.
    cbn [sessions] in Hl. rewrite Forall_forall in *.
    intros it Hit. destruct (Hi it Hit) as (_ & _ & Hs & _). rewrite Hs. auto.
  - apply Forall_forall. intros it Hit. apply in_map_iff in Hit.
    destruct Hit as (b & <- & Hb).
    rewrite (isStudyItem_break b) by (eapply break_titles; exact Hb).
    pose proof (dayBreaks_facts baseDate dayIndex (startTime req) (endTime req)) as Hf.
    destruct (dayWindow _ _ _ _) as [ds de]. destruct Hf as (Hf & _).
    rewrite Forall_forall in Hf. specialize (Hf b Hb).
    unfold lasts, addMinutes, MS_PER_HOUR, MS_PER_MINUTE in *. simpl. lia.
Qed.

(** A property of the items of every day is a property of the items of the
    plan. *)
Lemma planDays_Forall (P : PlanItem -> Prop) (baseDate : Instant)
    (req : PlanRequest) :
  (forall cursor dayIndex items cursor',
     planDay baseDate req cursor dayIndex = Some (items, cursor') -> Forall P items) ->
  forall remaining dayIndex items cursor result,
  planDays baseDate req remaining dayIndex items cursor = Some result ->
  Forall P items -> Forall P result.
Proof.
  intros Hday. induction remaining as [|remaining IH];
    intros dayIndex items cursor result; simpl.
  - intros H; inversion H; subst; auto.
  - destruct (planDay baseDate req cursor dayIndex) as [[combined cursor']|] eqn:Hd;
      [|discriminate].
    intros Heq Hitems. eapply IH; [exact Heq|].
    apply Forall_app. split; [exact Hitems|]. eapply Hday, Hd.
Qed.

Lemma buildStructuredPlan_total (req : PlanRequest) :
  exists items, buildStructuredPlan req = Some items.
Proof.
  unfold buildStructuredPlan.
  destruct (planDays_facts (setHours (anchorDate req) 0 0) req
              (Z.to_nat (totalDays req)) 0 [] 0) as (items & Heq & _).
  exists items. exact Heq.
Qed.

(** X1: in every plan a study session lasts 60 or 120 minutes and a break 60
    minutes, to the millisecond; so every item ends after it starts. *)
Theorem items_last_one_or_two_hours (req : PlanRequest) :
  exists items,
    buildStructuredPlan req = Some items
    /\ Forall (fun it => if isStudyItem it then lasts 60 it \/ lasts 120 it
                         else lasts 60 it) items
    /\ Forall (fun it => start it < end_ it) items.
Proof.
  destruct (buildStructuredPlan_total req) as (items & Heq).
  exists items. split; [exact Heq|].
  assert (H : Forall (fun it => if isStudyItem it then lasts 60 it \/ lasts 120 it
                                else lasts 60 it) items).
  { unfold buildStructuredPlan in Heq.
    eapply planDays_Forall; [|exact Heq|constructor].
    intros c i its c' Hd. eapply planDay_lasts, Hd. }
  split; [exact H|].
  eapply Forall_impl; [|exact H]. intros it. unfold lasts, addMinutes, MS_PER_MINUTE.
  destruct (isStudyItem it); lia.
Qed.

(** ** Where the items of a day lie *)

Lemma planDay_inside (baseDate : Instant) (req : PlanRequest)
    (cursor dayIndex : Z) :
  let dayStart := fst (getDailyWindow baseDate dayIndex (startTime req) (endTime req)) in
  let dayEnd := snd (getDailyWindow baseDate dayIndex (startTime req) (endTime req)) in
  exists items cursor',
    planDay baseDate req cursor dayIndex = Some (items, cursor')
    /\ Forall (fun it => dayStart <= start it /\ start it < end_ it
                         /\ end_ it <= dayEnd) items.
Proof.
  destruct (planDay_parts baseDate req cursor dayIndex)
    as (new & Heq & _ & Hpacked & _).
  cbv zeta in *. eexists _, _. split; [exact Heq|].
  pose proof (dayBreaks_facts baseDate dayIndex (startTime req) (endTime req)) as Hb.
  pose proof (dayStretches_facts baseDate dayIndex (startTime req) (endTime req)) as Hs.
  unfold dayWindow in *.
  destruct (getDailyWindow baseDate dayIndex (startTime req) (endTime req))
    as [dayStart dayEnd]. cbn [fst snd].
  destruct Hb as (Hbf & _). destruct Hs as (Hsf & Hssorted & _).
  rewrite Forall_forall in Hbf, Hsf.
  set (windows := daySlots baseDate dayIndex (startTime req) (endTime req)) in *.
  assert (Hwin : forall w, In w windows ->
            In w (dayStretches baseDate dayIndex (startTime req) (endTime req))).
  { intros w Hw. unfold windows in Hw. rewrite daySlots_filter in Hw.
    apply filter_In in Hw. tauto. }
  assert (Hwsorted : StronglySorted slotBefore windows).
  { unfold windows. rewrite daySlots_filter. now apply StronglySorted_filter. }
  assert (Hwwhole : Forall (fun w => wholeMinute (slot_start w)
                                     /\ wholeMinute (slot_end w)) windows).
  { apply Forall_forall. intros w Hw. specialize (Hsf w (Hwin w Hw)). tauto. }
  destruct (packed_layout _ _ _ _ _ _ Hpacked Hwsorted Hwwhole) as [_ Hnf].
  rewrite Forall_forall in Hnf.
  apply Forall_sortBy, Forall_app. split; apply Forall_forall.
  - intros it Hit. destruct (Hnf it Hit) as (Hpos & w & Hw & Hlo & Hhi).
    specialize (Hsf w (Hwin w Hw)). lia.
  - intros it Hit. apply in_map_iff in Hit. destruct Hit as (b & <- & Hb).
    specialize (Hbf b Hb). unfold MS_PER_HOUR in Hbf. simpl. lia.
Qed.

(** X2: every item of a day, session or break, lies inside the window of that
    day. *)
Theorem day_items_inside_window (baseDate : Instant) (req : PlanRequest)
    (cursor dayIndex : Z) :
  let dayStart := fst (getDailyWindow baseDate dayIndex (startTime req) (endTime req)) in
  let dayEnd := snd (getDailyWindow baseDate dayIndex (startTime req) (endTime req)) in
  exists items cursor',
    planDay baseDate req cursor dayIndex = Some (items, cursor')
    /\ Forall (fun it => dayStart <= start it /\ start it < end_ it
                         /\ end_ it <= dayEnd) items.
Proof. exact (planDay_inside baseDate req cursor dayIndex). Qed.

(** ** The order of the whole plan *)

Lemma window_step (baseDate : Instant) (dayIndex : Z) (st et : TimeOfDay) :
  validTime st -> validTime et ->
  snd (getDailyWindow baseDate dayIndex st et)
  <= fst (getDailyWindow baseDate (dayIndex + 1) st et).
Proof.
  intros (Hh1 & Hm1) (Hh2 & Hm2). unfold getDailyWindow. cbn [fst snd].
  destruct (Z.leb_spec (setHours (addDays baseDate dayIndex) (hours et) (minutes et))
              (setHours (addDays baseDate dayIndex) (hours st) (minutes st)));
    unfold_dates; zdiv.
Qed.

Lemma planDays_ordered (baseDate : Instant) (req : PlanRequest) :
  validTime (startTime req) -> validTime (endTime req) ->
  forall remaining dayIndex items cursor result,
  planDays baseDate req remaining dayIndex items cursor = Some result ->
  StronglySorted (fun a b => start a < start b /\ end_ a <= start b) items ->
  Forall (fun it => start it < end_ it
                    /\ end_ it <= fst (getDailyWindow baseDate dayIndex
                                         (startTime req) (endTime req)))
         items ->
  StronglySorted (fun a b => start a < start b /\ end_ a <= start b) result.
Proof.
  intros Hst Het. induction remaining as [|remaining IH];
    intros dayIndex items cursor result; cbn [planDays].
  - intros H; inversion H; subst; auto.
  - destruct (planDay_facts baseDate req cursor dayIndex)
      as (new & Heq & _ & Hsorted & Hproper & _).
    destruct (planDay_inside baseDate req cursor dayIndex)
      as (merged & c' & Heq2 & Hinside).
    cbv zeta in *. rewrite Heq in Heq2. inversion Heq2; subst merged c'. clear Heq2.
    rewrite Heq. intros Hres Hitems Hbefore.
    pose proof (window_step baseDate dayIndex _ _ Hst Het) as Hstep.
    assert (Hnext : fst (getDailyWindow baseDate dayIndex (startTime req) (endTime req))
                    <= fst (getDailyWindow baseDate (dayIndex + 1) (startTime req)
                              (endTime req))).
    { unfold getDailyWindow. cbn [fst]. unfold_dates. zdiv. }
    rewrite Forall_forall in Hproper, Hinside, Hbefore.
    eapply IH; [exact Hres| |].
    + apply StronglySorted_app; [exact Hitems| |].
      * eapply StronglySorted_weaken; [|exact Hsorted].
        intros a b Ha _ Hab. apply Hproper in Ha.
        unfold itemBefore, precedes, proper in *. lia.
      * intros a b Ha Hb. generalize (Hbefore a Ha) (Hinside b Hb). lia.
    + apply Forall_forall. intros it Hit. apply in_app_iff in Hit.
      destruct Hit as [Hit|Hit].
      * generalize (Hbefore it Hit). lia.
      * generalize (Hinside it Hit). lia.
Qed.

(** X3: for valid times of day the whole plan, over all its days, comes
    strictly in order of start, and every item is over by the time any later
    item begins: the days do not run into one another. *)
Theorem plan_ordered_across_days (req : PlanRequest) :
  validTime (startTime req) -> validTime (endTime req) ->
  exists items,
    buildStructuredPlan req = Some items
    /\ StronglySorted (fun a b => start a < start b /\ end_ a <= start b) items.
Proof.
  intros Hst Het. destruct (buildStructuredPlan_total req) as (items & Heq).
  exists items. split; [exact Heq|].
  unfold buildStructuredPlan in Heq.
  eapply planDays_ordered; eauto; constructor.
Qed.

Lemma plan_ordered_overnight :
  let req := mkRequest 0 ["A"; "B"]%string 3 (mkTime 22 0) (mkTime 6 0) 480 in
  validTime (startTime req) /\ validTime (endTime req)
  /\ exists items,
       buildStructuredPlan req = Some items
       /\ StronglySorted (fun a b => start a < start b /\ end_ a <= start b) items.
Proof.
  cbv zeta.
  assert (H22 : validTime (mkTime 22 0)) by (unfold validTime; simpl; lia).
  assert (H06 : validTime (mkTime 6 0)) by (unfold validTime; simpl; lia).
  split; [exact H22|]. split; [exact H06|].
  exact (plan_ordered_across_days
           (mkRequest 0 ["A"; "B"]%string 3 (mkTime 22 0) (mkTime 6 0) 480) H22 H06).
Defined.

(** ** The anchor date *)

Lemma planDays_withAnchor (anchor baseDate : Instant) (req : PlanRequest)
    (remaining : nat) :
  forall dayIndex items cursor,
  planDays baseDate (withAnchor anchor req) remaining dayIndex items cursor
  = planDays baseDate req remaining dayIndex items cursor.
Proof.
  induction remaining as [|remaining IH]; intros dayIndex items cursor; simpl; auto.
  change (planDay baseDate (withAnchor anchor req) cursor dayIndex)
    with (planDay baseDate req cursor dayIndex).
  destruct (planDay baseDate req cursor dayIndex) as [[combined cursor']|]; auto.
Qed.

(** X4: of the anchor date only the calendar day counts: anchors on the same
    day give the same plan, and an anchor [n] days later gives the same plan
    [n] days later. *)
Theorem plan_follows_anchor_day :
  (forall req anchor,
     startOfDay anchor = startOfDay (anchorDate req) ->
     buildStructuredPlan (withAnchor anchor req) = buildStructuredPlan req)
  /\ (forall req n,
        buildStructuredPlan (withAnchor (addDays (anchorDate req) n) req)
        = option_map (map (shiftItem (n * MS_PER_DAY))) (buildStructuredPlan req)).
Proof.
  split.
  - intros req anchor Hday. unfold buildStructuredPlan.
    cbn [anchorDate withAnchor totalDays].
    rewrite planDays_withAnchor. unfold setHours. now rewrite Hday.
  - intros req n. unfold buildStructuredPlan.
    cbn [anchorDate withAnchor totalDays].
    rewrite planDays_withAnchor, setHours_addDays. unfold addDays.
    apply (planDays_shift (n * MS_PER_DAY)) with (items := []).
    exists n. reflexivity.
Qed.

(** ** A free slot is used *)

Lemma packSlot_head (names : list string) (preferred dayCap : Z)
    (windowEnd from : Instant) (st : PackState) :
  0 < preferred ->
  0 <= minutesScheduled st < dayCap ->
  MIN_BLOCK_MINUTES <= minutesBetweenDates from windowEnd ->
  MIN_BLOCK_MINUTES <= dayCap - minutesScheduled st ->
  exists st' first more,
    packSlot (packFuel dayCap) names preferred dayCap windowEnd from st = Some st'
    /\ sessions st' = sessions st ++ first :: more
    /\ title first = ("Study " ++ subjectAt names (subjectCursor st))%string
    /\ start first = from
    /\ 0 <= minutesScheduled st'
    /\ subjectCursor st < subjectCursor st'.
Proof.
  intros Hp Hms Hslot Hcap. unfold packFuel. cbn [packSlot].
  destruct (Z.ltb_spec (minutesScheduled st) dayCap) as [_|]; [|lia].
  set (bl := pickBlockLength preferred (minutesBetweenDates from windowEnd)
               (dayCap - minutesScheduled st)).
  assert (Hbl : 0 < bl /\ bl <= dayCap - minutesScheduled st).
  { destruct (pickBlockLength_cases preferred (minutesBetweenDates from windowEnd)
                (dayCap - minutesScheduled st) Hp) as [H0|H]; fold bl in H0 || fold bl in H.
    - exfalso. unfold bl, pickBlockLength in H0.
      destruct (_ && _ && _); [lia|].
      destruct (Z.leb_spec MIN_BLOCK_MINUTES (minutesBetweenDates from windowEnd));
        destruct (Z.leb_spec MIN_BLOCK_MINUTES (dayCap - minutesScheduled st));
        simpl in H0; unfold MIN_BLOCK_MINUTES in *; lia.
    - lia. }
  destruct (Z.eqb_spec bl 0) as [|_]; [lia|].
  edestruct (packSlot_total names preferred dayCap Hp windowEnd (Z.to_nat dayCap)
               (addMinutes from bl)
               (mkPack (minutesScheduled st + bl)
                  (sessions st ++ [studySession (subjectAt names (subjectCursor st))
                                     from (addMinutes from bl)])
                  (subjectCursor st + 1))) as (lens & Heq & Hfits);
    [cbn [minutesScheduled]; lia|].
  rewrite Heq. eexists _, _, _. split; [reflexivity|].
  cbn [sessions minutesScheduled subjectCursor]. rewrite <- app_assoc.
  split; [reflexivity|]. split; [reflexivity|]. split; [reflexivity|].
  split; [|lia].
  assert (0 <= sumZ lens); [|lia].
  clear - Hfits. revert Hfits.
  generalize (addMinutes from bl) (minutesScheduled st + bl).
  induction lens as [|n lens IH]; simpl; intros; [lia|].
  destruct Hfits as (? & _ & _ & Hrest). apply IH in Hrest. lia.
Qed.

Lemma availableMinutesOf_cons (w : Slot) (windows : list Slot) :
  availableMinutesOf (w :: windows)
  = minutesBetweenDates (slot_start w) (slot_end w) + availableMinutesOf windows.
Proof.
  unfold availableMinutesOf. simpl.
  assert (H : forall l acc,
            fold_left (fun sum slot =>
                         sum + minutesBetweenDates (slot_start slot) (slot_end slot))
                      l acc
            = acc + fold_left (fun sum slot =>
                         sum + minutesBetweenDates (slot_start slot) (slot_end slot))
                      l 0).
  { induction l as [|x l IH]; intros acc; simpl; [lia|].
    rewrite IH, (IH (minutesBetweenDates _ _)). lia. }
  apply H.
Qed.

Lemma packDay_head (names : list string) (maxStudy : Z) (w : Slot)
    (windows : list Slot) (cursor : Z) :
  names <> [] ->
  MIN_BLOCK_MINUTES <= maxStudy ->
  MIN_BLOCK_MINUTES <= minutesBetweenDates (slot_start w) (slot_end w) ->
  exists st first more,
    packDay names maxStudy (w :: windows) cursor = Some st
    /\ sessions st = first :: more
    /\ title first = ("Study " ++ subjectAt names cursor)%string
    /\ start first = slot_start w
    /\ cursor < subjectCursor st.
Proof.
  intros Hnames Hmax Hw. unfold packDay.
  pose proof (availableMinutesOf_nonneg windows) as Hrest.
  pose proof (availableMinutesOf_cons w windows) as Hcons.
  set (available := availableMinutesOf (w :: windows)) in *.
  unfold MIN_BLOCK_MINUTES in *.
  destruct (Z.eqb_spec available 0); [lia|].
  set (p := choosePreferredBlockMinutes available (Z.of_nat (List.length names))).
  assert (Hp : 0 < p).
  { unfold p, choosePreferredBlockMinutes, MIN_BLOCK_MINUTES, MAX_BLOCK_MINUTES.
    destruct (Z.ltb_spec available 60); [lia|].
    destruct (Z.leb_spec (Z.of_nat (List.length names)) 0) as [Hlen|_].
    - destruct names; [congruence|simpl in Hlen; lia].
    - simpl. destruct (_ && _); lia. }
  destruct (Z.eqb_spec p 0); [lia|].
  cbn [packWindows].
  destruct (packSlot_head names p (Z.min maxStudy available) (slot_end w) (slot_start w)
              (mkPack 0 [] cursor) Hp)
    as (st1 & first & more & Heq & Hsess & Htitle & Hstart & Hms & Hcur);
    cbn [minutesScheduled]; unfold MIN_BLOCK_MINUTES; try lia.
  rewrite Heq. cbn [sessions subjectCursor app] in Hsess, Htitle, Hcur.
  destruct (Z.min maxStudy available <=? minutesScheduled st1).
  - exists st1, first, more. repeat split; assumption.
  - destruct (packWindows_total names p (Z.min maxStudy available) Hp windows st1 Hms)
      as (later & Heq' & _).
    rewrite Heq'. eexists _, first, (more ++ later).
    split; [reflexivity|]. cbn [sessions subjectCursor]. rewrite Hsess.
    repeat split; auto. lia.
Qed.

(** X5: a day that has a free slot gets a study session, whenever there is a
    subject and the cap allows a block: the first slot opens with a session
    for the subject under the cursor, and the cursor moves on. *)
Theorem free_slot_gets_session (baseDate : Instant) (req : PlanRequest)
    (cursor dayIndex : Z) (w : Slot) (windows : list Slot) :
  subjectNames req <> [] ->
  MIN_BLOCK_MINUTES <= maxStudyMinutesPerDay req ->
  daySlots baseDate dayIndex (startTime req) (endTime req) = w :: windows ->
  exists items cursor' first,
    planDay baseDate req cursor dayIndex = Some (items, cursor')
    /\ cursor < cursor'
    /\ In first items
    /\ title first = ("Study " ++ subjectAt (subjectNames req) cursor)%string
    /\ start first = slot_start w.
Proof.
  intros Hnames Hmax Hslots.
  assert (Hw : MIN_BLOCK_MINUTES <= minutesBetweenDates (slot_start w) (slot_end w)).
  { assert (Hin : In w (daySlots baseDate dayIndex (startTime req) (endTime req)))
      by (rewrite Hslots; now left).
    apply In_daySlots in Hin. tauto. }
  destruct (packDay_head (subjectNames req) (maxStudyMinutesPerDay req) w windows
              cursor Hnames Hmax Hw)
    as (st & first & more & Heq & Hsess & Htitle & Hstart & Hcur).
  rewrite planDay_unfold, Hslots, Heq.
  eexists _, _, first. split; [reflexivity|]. split; [exact Hcur|].
  split; [|split; assumption].
  apply In_sortBy, in_app_iff. left. rewrite Hsess. now left.
Qed.

Lemma free_slot_gets_session_witness :
  let req := mkRequest 0 ["Math"; "Physics"]%string 1 (mkTime 9 0) (mkTime 17 0) 60 in
  exists items cursor' first,
    planDay 0 req 0 0 = Some (items, cursor')
    /\ 0 < cursor'
    /\ In first items
    /\ title first = "Study Math"%string
    /\ start first = 32400000.
Proof.
  cbv zeta.
  refine (free_slot_gets_session 0
            (mkRequest 0 ["Math"; "Physics"]%string 1 (mkTime 9 0) (mkTime 17 0) 60)
            0 0 (mkSlot 32400000 46800000) [mkSlot 50400000 61200000] _ _ _).
  - discriminate.
  - vm_compute. discriminate.
  - vm_compute. reflexivity.
Defined.

(** ** How large a plan gets *)

Lemma length_placeBreak (baseDay ws we : Instant) (spec : FixedBreak) :
  (List.length (placeBreak baseDay ws we spec) <= 1)%nat.
Proof. unfold placeBreak. destruct (_ && _); simpl; lia. Qed.

Lemma length_buildBreaksForDay (anchor : Instant) (dayIndex : Z) (ws we : Instant) :
  (List.length (buildBreaksForDay anchor dayIndex ws we) <= 3)%nat.
Proof.
  unfold buildBreaksForDay. rewrite length_sortBy. unfold FIXED_BREAKS.
  cbn [flat_map]. rewrite !length_app. cbn [List.length].
  set (base := setHours (addDays anchor dayIndex) 0 0).
  pose proof (length_placeBreak base ws we (mkFixedBreak "Lunch Break" 13 14)).
  pose proof (length_placeBreak base ws we (mkFixedBreak "Snack Break" 17 18)).
  pose proof (length_placeBreak base ws we (mkFixedBreak "Dinner Break" 20 21)).
  lia.
Qed.

Lemma sessions_count (new : list PlanItem) :
  Forall (fun it => lasts 60 it \/ lasts 120 it) new ->
  60 * Z.of_nat (List.length new) <= sumMinutes new.
Proof.
  induction 1 as [|it new Hit Hnew IH]; simpl List.length; simpl sumMinutes; [lia|].
  assert (60 <= itemMinutes it).
  { unfold itemMinutes, lasts in *.
    destruct Hit as [-> | ->]; rewrite minutesBetweenDates_addMinutes; lia. }
  lia.
Qed.

Lemma planDay_size (baseDate : Instant) (req : PlanRequest) (cursor dayIndex : Z)
    (items : list PlanItem) (cursor' : Z) :
  0 <= maxStudyMinutesPerDay req ->
  planDay baseDate req cursor dayIndex = Some (items, cursor') ->
  60 * Z.of_nat (List.length (filter isStudyItem items)) <= maxStudyMinutesPerDay req
  /\ (List.length items <= List.length (filter isStudyItem items) + 3)%nat.
Proof.
  intros Hmax.
  destruct (planDay_parts baseDate req cursor dayIndex)
    as (new & Heq & Hday & Hpacked & Hfilter).
  cbv zeta in Heq. rewrite Heq. intros H. inversion H; subst. clear H Heq.
  rewrite Hfilter, length_sortBy, length_app, length_map. split.
  - pose proof (sessions_count new (packDay_lasts _ _ _ _ _ Hday)) as Hcount.
    pose proof (availableMinutesOf_nonneg
                  (daySlots baseDate dayIndex (startTime req) (endTime req))) as Hav.
    assert (Hcap : 0 <= Z.min (maxStudyMinutesPerDay req)
                          (availableMinutesOf
                             (daySlots baseDate dayIndex (startTime req) (endTime req))))
      by lia.
    pose proof (packed_cap _ _ _ _ _ _ Hpacked Hcap). lia.
  - unfold dayBreaks.
    destruct (getDailyWindow baseDate dayIndex (startTime req) (endTime req)) as [ds de].
    pose proof (length_buildBreaksForDay baseDate dayIndex ds de). lia.
Qed.

Lemma planDays_size (baseDate : Instant) (req : PlanRequest) :
  0 <= maxStudyMinutesPerDay req ->
  forall remaining dayIndex items cursor result,
  planDays baseDate req remaining dayIndex items cursor = Some result ->
  60 * Z.of_nat (List.length result)
  <= 60 * Z.of_nat (List.length items)
     + Z.of_nat remaining * (maxStudyMinutesPerDay req + 180).
Proof.
  intros Hmax. induction remaining as [|remaining IH];
    intros dayIndex items cursor result; cbn [planDays].
  - intros H; inversion H; subst. lia.
  - destruct (planDay baseDate req cursor dayIndex) as [[combined cursor']|] eqn:Hd;
      [|discriminate].
    intros Heq. apply IH in Heq. rewrite length_app in Heq.
    destruct (planDay_size _ _ _ _ _ _ Hmax Hd). lia.
Qed.

(** X6: with a cap of [m >= 0] minutes a day holds at most [m / 60] study
    sessions and three breaks, so a plan of [d] days has at most
    [d * (m / 60 + 3)] items; at most 660, then, for the 60 days and 480
    minutes the controller allows, which is under its limit of 1000. *)
Theorem plan_size_bounded (req : PlanRequest) :
  0 <= maxStudyMinutesPerDay req ->
  exists items,
    buildStructuredPlan req = Some items
    /\ 60 * Z.of_nat (List.length items)
       <= Z.max 0 (totalDays req) * (maxStudyMinutesPerDay req + 180)
    /\ (totalDays req <= MAX_PLANNED_DAYS ->
        maxStudyMinutesPerDay req <= MAX_STUDY_HOURS_PER_DAY * 60 ->
        (List.length items <= 660)%nat).
Proof.
  intros Hmax. destruct (buildStructuredPlan_total req) as (items & Heq).
  exists items. split; [exact Heq|].
  unfold buildStructuredPlan in Heq. apply (planDays_size _ _ Hmax) in Heq.
  simpl List.length in Heq. unfold MAX_PLANNED_DAYS, MAX_STUDY_HOURS_PER_DAY.
  replace (Z.of_nat (Z.to_nat (totalDays req))) with (Z.max 0 (totalDays req)) in Heq
    by lia.
  split; [lia|]. intros Hdays Hcap. nia.
Qed.

Lemma plan_size_bounded_witness :
  let req := mkRequest 0 ["A"]%string 60 (mkTime 0 0) (mkTime 0 0) 480 in
  exists items,
    buildStructuredPlan req = Some items /\ (List.length items <= 660)%nat.
Proof.
  cbv zeta.
  destruct (plan_size_bounded
              (mkRequest 0 ["A"]%string 60 (mkTime 0 0) (mkTime 0 0) 480))
    as (items & Heq & _ & Hsize).
  - simpl. lia.
  - exists items. split; [exact Heq|].
    apply Hsize; unfold MAX_PLANNED_DAYS, MAX_STUDY_HOURS_PER_DAY; simpl; lia.
Defined.

(** ** Free slots for any list of breaks *)

Lemma carve_lower (dayEnd : Instant) (breaks : list Break) :
  forall cursor s, In s (carveWindows dayEnd cursor breaks) ->
  cursor <= slot_start s /\ slot_start s < slot_end s.
Proof.
  induction breaks as [|b breaks IH]; intros cursor s; simpl.
  - destruct (Z.ltb_spec cursor dayEnd); simpl; [|tauto].
    intros [<-|[]]. simpl. lia.
  - rewrite in_app_iff. intros [Hs|Hs].
    + destruct (Z.ltb_spec cursor (brk_start b)); simpl in Hs; [|tauto].
      destruct Hs as [<-|[]]. simpl. lia.
    + apply IH in Hs. destruct (Z.ltb_spec cursor (brk_end b)); lia.
Qed.

Lemma carve_apart_any (dayEnd : Instant) (breaks : list Break) :
  StronglySorted (keyLe brk_start) breaks ->
  forall cursor s b, In s (carveWindows dayEnd cursor breaks) -> In b breaks ->
  slot_end s <= brk_start b \/ brk_end b <= slot_start s.
Proof.
  induction 1 as [|b0 breaks Hs IH Hb0]; intros cursor s b; simpl; [tauto|].
  rewrite in_app_iff. intros [Hin|Hin] [<-|Hb].
  - destruct (cursor <? brk_start b0); simpl in Hin; [|tauto].
    destruct Hin as [<-|[]]. simpl. lia.
  - destruct (cursor <? brk_start b0); simpl in Hin; [|tauto].
    destruct Hin as [<-|[]]. simpl.
    rewrite Forall_forall in Hb0. specialize (Hb0 b Hb). unfold keyLe in Hb0. lia.
  - apply carve_lower in Hin.
    destruct (Z.ltb_spec cursor (brk_end b0)); lia.
  - eapply IH; eauto.
Qed.

(** X7: whatever breaks [buildStudyWindows] is given, in any order and
    overlapping or not, every slot it returns starts at or after the start of
    the day, rounds to at least 60 minutes and meets none of the breaks; the
    slots end by the end of the day when no break starts after it. *)
Theorem free_slots_avoid_breaks (dayStart dayEnd : Instant) (breaks : list Break) :
  let slots := buildStudyWindows dayStart dayEnd breaks in
  Forall (fun s => dayStart <= slot_start s /\ slot_start s < slot_end s
                   /\ MIN_BLOCK_MINUTES
                      <= minutesBetweenDates (slot_start s) (slot_end s)) slots
  /\ (forall s b, In s slots -> In b breaks ->
        slot_end s <= brk_start b \/ brk_end b <= slot_start s)
  /\ (Forall (fun b => brk_start b <= dayEnd) breaks ->
      Forall (fun s => slot_end s <= dayEnd) slots).
Proof.
  cbv zeta. unfold buildStudyWindows. split; [|split].
  - apply Forall_forall. intros s Hs. apply filter_In in Hs. destruct Hs as [Hs Hfit].
    apply carve_lower in Hs. unfold slotFits in Hfit. apply Z.leb_le in Hfit. lia.
  - intros s b Hs Hb. apply filter_In in Hs. destruct Hs as [Hs _].
    eapply carve_apart_any; [apply sortBy_sorted|exact Hs|]. now apply In_sortBy.
  - intros Hle. apply Forall_forall. intros s Hs. apply filter_In in Hs.
    destruct Hs as [Hs _].
    apply carve_bounds in Hs; [lia|]. now apply Forall_sortBy.
Qed.

(** A break that starts after the end of the day draws the slot before it
    past the end of the day. *)
Example slot_past_the_end_of_day :
  buildStudyWindows 0 6000000 [mkBreak "Late" 12000000 15600000]
  = [mkSlot 0 12000000].
Proof. reflexivity. Qed.

(** ** The same timetable every day *)

Lemma sortBy_map_key {A B : Type} (keyA : A -> Z) (keyB : B -> Z) (f : A -> B)
    (l : list A) :
  (forall a, keyB (f a) = keyA a) ->
  map f (sortBy keyA l) = sortBy keyB (map f l).
Proof.
  intros Hkey.
  assert (Hins : forall x l', map f (insertBy keyA x l') = insertBy keyB (f x) (map f l')).
  { intros x l'. induction l' as [|y l' IH]; simpl; auto.
    rewrite !Hkey. destruct (_ <=? _); simpl; now rewrite ?IH. }
  induction l as [|x l IH]; simpl; auto.
  now rewrite Hins, IH.
Qed.

Lemma packSlot_any_cursor (names : list string) (preferred dayCap : Z)
    (windowEnd : Instant) (fuel : nat) :
  forall from st st2,
  shapeState st = shapeState st2 ->
  option_map shapeState (packSlot fuel names preferred dayCap windowEnd from st)
  = option_map shapeState (packSlot fuel names preferred dayCap windowEnd from st2).
Proof.
  induction fuel as [|fuel IH]; intros from st st2 Hshape; simpl; auto.
  pose proof Hshape as Hboth. unfold shapeState in Hboth.
  inversion Hboth as [[Hms Hsess]]. rewrite <- ?Hms.
  destruct (_ <? dayCap); [|simpl; now rewrite Hshape].
  destruct (_ =? 0); [simpl; now rewrite Hshape|].
  apply IH. unfold shapeState. cbn [minutesScheduled sessions].
  now rewrite !map_app, Hsess.
Qed.

Lemma packWindows_any_cursor (names : list string) (preferred dayCap : Z) (fuel : nat)
    (windows : list Slot) :
  forall st st2,
  shapeState st = shapeState st2 ->
  option_map shapeState (packWindows fuel names preferred dayCap windows st)
  = option_map shapeState (packWindows fuel names preferred dayCap windows st2).
Proof.
  induction windows as [|w windows IH]; intros st st2 Hshape; cbn [packWindows].
  - simpl. now rewrite Hshape.
  - pose proof (packSlot_any_cursor names preferred dayCap (slot_end w) fuel
                  (slot_start w) st st2 Hshape) as Hslot.
    destruct (packSlot fuel names preferred dayCap (slot_end w) (slot_start w) st)
      as [r|];
      destruct (packSlot fuel names preferred dayCap (slot_end w) (slot_start w) st2)
      as [r2|]; simpl in Hslot; try discriminate; auto.
    assert (Hr : shapeState r = shapeState r2) by congruence.
    assert (Hms : minutesScheduled r = minutesScheduled r2) by exact (f_equal fst Hr).
    rewrite <- Hms.
    destruct (dayCap <=? minutesScheduled r); [exact Hslot|].
    now apply IH.
Qed.

Lemma packDay_any_cursor (names : list string) (maxStudy : Z) (windows : list Slot)
    (cursor cursor2 : Z) :
  option_map shapeState (packDay names maxStudy windows cursor)
  = option_map shapeState (packDay names maxStudy windows cursor2).
Proof.
  unfold packDay.
  destruct (_ =? 0); [reflexivity|].
  destruct (_ =? 0); [reflexivity|].
  now apply packWindows_any_cursor.
Qed.

Lemma planDay_any_cursor (baseDate : Instant) (req : PlanRequest)
    (cursor cursor2 dayIndex : Z) :
  option_map (fun day => map itemShape (fst day)) (planDay baseDate req cursor dayIndex)
  = option_map (fun day => map itemShape (fst day))
      (planDay baseDate req cursor2 dayIndex).
Proof.
  rewrite !planDay_unfold.
  pose proof (packDay_any_cursor (subjectNames req) (maxStudyMinutesPerDay req)
                (daySlots baseDate dayIndex (startTime req) (endTime req))
                cursor cursor2) as Hday.
  destruct (packDay _ _ _ cursor) as [st|];
    destruct (packDay _ _ _ cursor2) as [st2|]; simpl in Hday; try discriminate; auto.
  inversion Hday as [[Hms Hsess]]. simpl. f_equal.
  rewrite !(sortBy_map_key start shapeStart itemShape) by reflexivity.
  now rewrite !map_app, Hsess.
Qed.

Lemma planDay_index (baseDate : Instant) (req : PlanRequest) (cursor dayIndex : Z) :
  planDay baseDate req cursor dayIndex
  = option_map (shiftDay (dayIndex * MS_PER_DAY)) (planDay baseDate req cursor 0).
Proof.
  rewrite <- planDay_shift by (exists dayIndex; reflexivity).
  unfold planDay, getDailyWindow, buildBreaksForDay.
  replace (addDays (baseDate + dayIndex * MS_PER_DAY) 0) with (addDays baseDate dayIndex)
    by (unfold addDays; lia).
  reflexivity.
Qed.

(** X8: every day has the timetable of the first day: the items of day [i]
    are sessions and breaks at the times of the items of day 0, [i] days
    later, whichever subjects are due. *)
Theorem timetable_repeats_daily (baseDate : Instant) (req : PlanRequest)
    (cursor cursor0 dayIndex : Z) :
  option_map (fun day => map itemShape (fst day))
    (planDay baseDate req cursor dayIndex)
  = option_map
      (fun day => map itemShape (map (shiftItem (dayIndex * MS_PER_DAY)) (fst day)))
      (planDay baseDate req cursor0 0).
Proof.
  rewrite (planDay_any_cursor baseDate req cursor cursor0 dayIndex), planDay_index.
  destruct (planDay baseDate req cursor0 0) as [[items c]|]; reflexivity.
Qed.

(** * The plan request handler *)

(** ** Subject names *)







Example normalizeSubjects_examples :
  normalizeSubjects (SubjectsString " Math , ,Physics,") = ["Math"; "Physics"]%string
  /\ normalizeSubjects (SubjectsArray ["  "; "Art "; ""]%string) = ["Art"]%string
  /\ normalizeSubjects (SubjectsString "") = []
  /\ normalizeSubjects SubjectsOther = [].
Proof. repeat split; reflexivity. Qed.

(** ** The cap on study minutes *)










(** ** What reaches the engine *)









(** ** Plans without study sessions *)








(** A window that is exactly the lunch break, or that leaves half an hour on
    either side of it, holds no slot. *)
Example unable_examples :
  createPlan (SubjectsArray ["A"]%string) (JS.VString "13:00") (JS.VString "14:00")
             None (Some 0) JS.NaN = Some (BadRequest UNABLE_TO_BUILD)
  /\ createPlan (SubjectsArray ["A"]%string) (JS.VString "12:30") (JS.VString "14:30")
                (Some 7) (Some 0) (JS.ofZ 2) = Some (BadRequest UNABLE_TO_BUILD).
Proof. split; vm_compute; reflexivity. Qed.

(** * Marking an item as completed *)

Lemma findItem_found (itemId : ObjectId) (items : list StoredItem) (it : StoredItem) :
  findItem itemId items = Some it -> item_id it = itemId /\ In it items.
Proof.
  induction items as [|x items IH]; simpl; [discriminate|].
  destruct (String.eqb_spec (item_id x) itemId) as [Heq|Hne].
  - intros H; inversion H; subst. auto.
  - intros H. apply IH in H. tauto.
Qed.

Lemma setCompleted_frozen (itemId : ObjectId) (b : bool) (items : list StoredItem) :
  map frozenPart (setCompleted itemId b items) = map frozenPart items.
Proof.
  induction items as [|x items IH]; simpl; auto.
  destruct (String.eqb (item_id x) itemId); simpl; [reflexivity|now rewrite IH].
Qed.

Lemma setCompleted_found (itemId : ObjectId) (b : bool) (items : list StoredItem)
    (it : StoredItem) :
  findItem itemId items = Some it ->
  findItem itemId (setCompleted itemId b items) = Some (withCompleted b it).
Proof.
  induction items as [|x items IH]; simpl; [discriminate|].
  destruct (String.eqb (item_id x) itemId) eqn:Hx; simpl.
  - intros H; inversion H; subst. now rewrite Hx.
  - intros H. rewrite Hx. now apply IH.
Qed.

Lemma setCompleted_others (itemId : ObjectId) (b : bool) (items : list StoredItem)
    (other : StoredItem) :
  item_id other <> itemId ->
  In other (setCompleted itemId b items) <-> In other items.
Proof.
  intros Hne. induction items as [|x items IH]; simpl; [tauto|].
  destruct (String.eqb_spec (item_id x) itemId) as [Heq|Hx]; simpl.
  - split; intros [H|H]; auto; left + right; subst; simpl in *; congruence.
  - rewrite IH. tauto.
Qed.

(** X14: marking an item leaves every identifier, title and time of the
    stored plan as it was.  When it succeeds, the value sent was a boolean,
    the item returned is the one with the identifier asked for, it now has
    that value, and the items with other identifiers are the same as before;
    when it is rejected, with status 400 or 404, nothing is stored. *)
Theorem completion_changes_only_the_flag (latest : option (list StoredItem))
    (itemId : ObjectId) (value : JS.Value) :
  let reply := fst (updatePlanItemCompletion latest itemId value) in
  let after := snd (updatePlanItemCompletion latest itemId value) in
  option_map (map frozenPart) after = option_map (map frozenPart) latest
  /\ match reply with
     | UpdateOk it =>
         exists b items items',
           value = JS.VBoolean b /\ latest = Some items /\ after = Some items'
           /\ item_id it = itemId /\ completed (stored it) = b
           /\ findItem itemId items' = Some it
           /\ (forall other, item_id other <> itemId ->
                 (In other items' <-> In other items))
     | UpdateRejected status _ => after = latest /\ (status = 400 \/ status = 404)
     end.
Proof.
  cbv zeta. unfold updatePlanItemCompletion.
  destruct value; try (simpl; split; [reflexivity|split; [reflexivity|now left]]).
  destruct latest as [items|]; [|simpl; split; [reflexivity|split; [reflexivity|now right]]].
  destruct (findItem itemId items) as [it|] eqn:Hfind;
    [|simpl; split; [reflexivity|split; [reflexivity|now right]]].
  cbn [fst snd option_map]. split; [now rewrite setCompleted_frozen|].
  exists b, items, (setCompleted itemId b items).
  destruct (findItem_found _ _ _ Hfind) as [Hid _].
  repeat split; auto.
  - now apply setCompleted_found.
  - now apply setCompleted_others.
  - now apply setCompleted_others.
Qed.

(** * Pushing a plan to the calendar *)






(** * Names of uploaded files *)

Lemma list_ascii_of_string_app (a b : string) :
  list_ascii_of_string (a ++ b) = list_ascii_of_string a ++ list_ascii_of_string b.
Proof. induction a as [|c a IH]; simpl; [reflexivity|now rewrite IH]. Qed.

Lemma skipDigits_run (digits rest : list ascii) :
  forallb isDigit digits = true ->
  skipDigits (digits ++ "-"%char :: rest) = (List.length digits, "-"%char :: rest).
Proof.
  induction digits as [|c digits IH]; simpl; [reflexivity|].
  intros H. apply andb_true_iff in H. destruct H as [Hc Hd].
  now rewrite Hc, IH.
Qed.

Lemma skipNumberDash_run (digits rest : list ascii) :
  digits <> [] -> forallb isDigit digits = true ->
  skipNumberDash (digits ++ "-"%char :: rest) = Some rest.
Proof.
  intros Hne Hd. unfold skipNumberDash. rewrite skipDigits_run by exact Hd.
  destruct digits; [congruence|reflexivity].
Qed.

(** X16: a stored name made of two runs of digits, each followed by a dash,
    and then the original name is shown as the original name, whatever that
    is. *)
Theorem original_name_recovered (stamp serial original : string) :
  stamp <> ""%string -> serial <> ""%string ->
  forallb isDigit (list_ascii_of_string stamp) = true ->
  forallb isDigit (list_ascii_of_string serial) = true ->
  originalName (stamp ++ "-" ++ serial ++ "-" ++ original) = original.
Proof.
  intros Hs Hr Hsd Hrd. unfold originalName. cbv zeta.
  rewrite list_ascii_of_string_app. simpl list_ascii_of_string at 2.
  rewrite list_ascii_of_string_app. simpl list_ascii_of_string at 3.
  rewrite skipNumberDash_run; auto.
  - rewrite skipNumberDash_run; auto.
    + apply string_of_list_ascii_of_string.
    + destruct serial; [congruence|discriminate].
  - destruct stamp; [congruence|discriminate].
Qed.

Lemma original_name_recovered_witness :
  originalName "1712345678901-482913-notes-2024-05.pdf" = "notes-2024-05.pdf"%string.
Proof.
  apply (original_name_recovered "1712345678901" "482913" "notes-2024-05.pdf");
    (discriminate || reflexivity).
Defined.

(** A name that does not begin that way is shown as it is. *)
Example original_name_kept :
  originalName "notes.pdf" = "notes.pdf"%string
  /\ originalName "2024-notes.pdf" = "2024-notes.pdf"%string
  /\ originalName "12-34x-notes.pdf" = "12-34x-notes.pdf"%string.
Proof. repeat split; reflexivity. Qed.

(** * Minutes and windows *)

(** X17: [minutesBetweenDates] is never negative and is zero when the end is
    not after the start; otherwise it is the distance rounded to the nearest
    minute, half a minute going up; and it gives back the minutes that
    [addMinutes] added. *)
Theorem minutes_between_rounds :
  (forall s e, e <= s -> minutesBetweenDates s e = 0)
  /\ (forall s e, s <= e ->
        minutesBetweenDates s e * MS_PER_MINUTE - 30000 <= e - s
        /\ e - s < minutesBetweenDates s e * MS_PER_MINUTE + 30000)
  /\ (forall d n, minutesBetweenDates d (addMinutes d n) = Z.max 0 n).
Proof.
  unfold minutesBetweenDates, roundDiv, addMinutes, MS_PER_MINUTE.
  split; [|split].
  - intros s e H. zdiv.
  - intros s e H. zdiv.
  - intros d n. zdiv.
Qed.


